(** * weather-pipeline: normalisation and daily aggregation

    A shallow embedding of [weather.go] (the version with the National
    Weather Service fallback) and of the batch driver that sits next to it.

    - float64 values are Rocq's primitive binary64 floats; Go's [a > b] is
      [b <? a] and Go's [a < b] is [a <? b];
    - the Go map [dayMap] is a [gmap string dayBucket];
    - fallible functions return an [outcome]: a value, a Go [error], or a
      run-time panic (index out of range, negative [make] length);
    - the upstream services, the clock and the Go standard library calls
      ([url.Parse], [time.Parse], [fmt.Sprintf] verbs) are inputs. *)

From Stdlib Require Import ZArith Lia List Ascii String Bool DecimalString.
From Stdlib Require Import Floats.
From stdpp Require Import gmap strings list sorting.

Local Open Scope Z_scope.
Set Warnings "-inexact-float".

(** * float64 comparisons

    The aggregation only compares temperatures.  The facts below are read
    off the IEEE-754 specification of the primitive comparison. *)

Module F64.

Definition gt (a b : float) : bool := PrimFloat.ltb b a.
Definition lt (a b : float) : bool := PrimFloat.ltb a b.
Definition is_nan (a : float) : bool := negb (PrimFloat.eqb a a).

(** Rank of a non-NaN specification float in a lexicographic order of
    (class, exponent, mantissa). *)
Definition rank (x : spec_float) : Z * (Z * Z) :=
  match x with
  | S754_zero _ => (0, (0, 0))
  | S754_infinity true => (-2, (0, 0))
  | S754_infinity false => (2, (0, 0))
  | S754_nan => (0, (0, 0))
  | S754_finite true m e => (-1, (- e, - Z.pos m))
  | S754_finite false m e => (1, (e, Z.pos m))
  end.

Definition lex_lt (a b : Z * (Z * Z)) : Prop :=
  a.1 < b.1 \/ (a.1 = b.1 /\ (a.2.1 < b.2.1 \/ (a.2.1 = b.2.1 /\ a.2.2 < b.2.2))).

Definition sf_nan (x : spec_float) : bool :=
  match x with S754_nan => true | _ => false end.

End F64.

(** * Go values: errors, panics, the standard library as an interface *)

(** The errors the pipeline builds with [fmt.Errorf]; [ErrWrap] is the
    [%w] wrapping with its message prefix. *)
Inductive error : Type :=
| ErrInvalidURL                       (* "invalid URL: ..." *)
| ErrNotHTTPS                         (* "URL must use HTTPS" *)
| ErrHostNotAllowed (host : string)   (* "URL host not allowed: %s" *)
| ErrTransport (what : string)        (* http.Get / client.Do / NewRequest failed *)
| ErrStatus (api : string) (code : Z) (* "... API error: status code %d" *)
| ErrDecode (what : string)           (* "error decoding ... response" *)
| ErrNoStations                       (* "no observation stations found" *)
| ErrConfig (msg : string)            (* ValidateConfig *)
| ErrWrap (msg : string) (e : error).

(** What a Go call can do: return a value, return a non-nil [error], or
    panic (which, unrecovered, ends the process). *)
Inductive outcome (A : Type) : Type :=
| Ok (a : A)
| Err (e : error)
| Panic (msg : string).
Arguments Ok {A} a.
Arguments Err {A} e.
Arguments Panic {A} msg.

(** The error monad of the pipeline, with stdpp's [x ← m; k] notation:
    an [Err] or a [Panic] skips the rest. *)
#[global] Instance outcome_ret : MRet outcome := @Ok.
#[global] Instance outcome_bind : MBind outcome := fun A B k m =>
  match m with
  | Ok a => k a
  | Err e => Err e
  | Panic s => Panic s
  end.

(** [url.URL], the two fields [validateURL] reads. *)
Record URL := mkURL { Scheme : string; Host : string }.

(** The Go standard library functions the pipeline calls.  They are not
    part of the repository; every theorem below holds for any
    implementation of this interface. *)
Class GoStd := {
  Time : Type;
  time_Zero : Time;                            (* time.Time{} *)
  time_Parse : string -> option Time;          (* time.Parse(time.RFC3339, s) *)
  time_Format : Time -> string;                (* t.Format("2006-01-02") *)
  time_Unix : Time -> Z;                       (* t.Unix() *)
  url_Parse : string -> option URL;            (* url.Parse *)
  Sprintf_f : float -> string;                 (* "%f" *)
  Sprintf_4f : float -> string;                (* "%.4f" *)
  Sprintf_1f : float -> string;                (* "%.1f" *)
  Sprintf_d : Z -> string;                     (* "%d" *)
  Format_MonJan2 : Z -> string;                (* time.Unix(dt, 0).Format("Mon Jan 2") *)
  int_of_float64 : float -> Z;                 (* int(x) *)
}.

(** * Wire and pipeline types (weather.go) *)

Record CurrentConditions := {
  Current_Temp : float;
  Current_FeelsLike : float;
  Current_Humidity : Z;
  Current_WindSpeed : float;
  Current_Weather : list string;       (* []struct{Description string} *)
}.

Record DailyEntry := {
  Daily_Dt : Z;
  Daily_Temp_Min : float;
  Daily_Temp_Max : float;
  Daily_Weather : list string;         (* []struct{Description string} *)
}.

Record WeatherResponse := {
  Current : CurrentConditions;
  Daily : list DailyEntry;
}.

Record GeoResponse := { Geo_Lat : float; Geo_Lon : float; Geo_Name : string }.

Record NWSPointResponse := {
  Forecast_URL : string;
  ForecastHourly : string;
  ObservationStations : string;
  City : string;
}.

Record Period := {
  StartTime : string;
  EndTime : string;
  Temperature : float;
  Period_WindSpeed : string;
  WindDirection : string;
  ShortForecast : string;
  DetailedForecast : string;
  IsDaytime : bool;
}.

Record NWSForecastResponse := { Periods : list Period }.

(** [Features[i].Properties.StationIdentifier] *)
Record NWSStationsResponse := { Features : list string }.

Record NWSObservationResponse := {
  Obs_Temperature : float;
  Obs_WindSpeed : float;
  Obs_RelativeHumidity : float;
  Obs_HeatIndex : float;
  TextDescription : string;
}.

Definition zeroCurrent : CurrentConditions :=
  {| Current_Temp := 0; Current_FeelsLike := 0; Current_Humidity := 0;
     Current_WindSpeed := 0; Current_Weather := [] |}.

(** * The daily aggregator (getNWSWeather, "Group forecast periods by day") *)

Section Aggregator.
Context `{GoStd}.

(** The anonymous struct stored in [dayMap]. *)
Record dayBucket := {
  date : Time;
  minTemp : float;
  maxTemp : float;
  description : string;
}.

Definition zeroBucket : dayBucket :=
  {| date := time_Zero; minTemp := 0; maxTemp := 0; description := "" |}.

(** The [else] branch of the loop body: the two independent [if]s. *)
Definition updateDay (day : dayBucket) (period : Period) : dayBucket :=
  let day :=
    if IsDaytime period && F64.gt (Temperature period) (maxTemp day)
    then {| date := date day; minTemp := minTemp day;
            maxTemp := Temperature period;
            description := ShortForecast period |}
    else day in
  if negb (IsDaytime period) && F64.lt (Temperature period) (minTemp day)
  then {| date := date day; minTemp := Temperature period;
          maxTemp := maxTemp day; description := description day |}
  else day.

(** One iteration of [for _, period := range forecastData.Properties.Periods]. *)
Definition addPeriod (dayMap : gmap string dayBucket) (period : Period)
  : gmap string dayBucket :=
  match time_Parse (StartTime period) with
  | None => dayMap                                     (* continue *)
  | Some startTime =>
      let dateKey := time_Format startTime in
      let day :=
        match dayMap !! dateKey with
        | None => {| date := startTime;
                     minTemp := Temperature period;
                     maxTemp := Temperature period;
                     description := ShortForecast period |}
        | Some day => updateDay day period
        end in
      <[dateKey := day]> dayMap
  end.

Definition groupPeriods (periods : list Period) : gmap string dayBucket :=
  foldl addPeriod ∅ periods.

(** [sort.Strings]: ascending, byte-wise. *)
Definition sort_Strings (l : list string) : list string :=
  merge_sort String.le l.

Definition mkDaily (dayData : dayBucket) : DailyEntry :=
  {| Daily_Dt := time_Unix (date dayData);
     Daily_Temp_Min := minTemp dayData;
     Daily_Temp_Max := maxTemp dayData;
     Daily_Weather := [description dayData] |}.

(** The tail of getNWSWeather, from "Convert map to sorted array".  [keys]
    is the order in which [for day := range dayMap] happened to visit the
    map; each emitted entry is paired with the date key it was read from. *)
Definition dailyFrom (keys : list string) (dayMap : gmap string dayBucket)
    (today : string) : list (string * DailyEntry) :=
  let days := sort_Strings keys in
  let first :=
    match dayMap !! today with
    | Some dayData => [(today, mkDaily dayData)]
    | None => []
    end in
  first ++
  flat_map (fun day =>
              if decide (day = today) then []          (* continue *)
              else [(day, mkDaily (default zeroBucket (dayMap !! day)))])
           days.

Definition nwsDailyKeyed (dayMap : gmap string dayBucket) (today : string)
  : list (string * DailyEntry) :=
  dailyFrom (map_to_list dayMap).*1 dayMap today.

(** [weather.Daily] as getNWSWeather leaves it. *)
Definition nwsDaily (periods : list Period) (today : string) : list DailyEntry :=
  (nwsDailyKeyed (groupPeriods periods) today).*2.

End Aggregator.

(** * weather.go: validation, coordinates, the two fetch strategies *)

(** What one HTTP exchange can yield: the client returns an error, or a
    response with a status code whose body JSON-decodes ([Some]) or does
    not ([None]). *)
Inductive http_result (A : Type) : Type :=
| NetError
| Response (status : Z) (body : option A).
Arguments NetError {A}.
Arguments Response {A} status body.

Definition nl : string := String (ascii_of_nat 10) EmptyString.

Definition geoEndpoint : string := "https://api.openweathermap.org/geo/1.0/zip".
Definition weatherEndpoint : string := "https://api.openweathermap.org/data/3.0/onecall".
Definition nwsPointsEndpoint : string := "https://api.weather.gov/points".

(** [len(zip) != 5] counts bytes and the loop ranges over runes; a byte
    outside ASCII decodes to a rune above ['9'], so the byte-wise check
    below accepts the same strings. *)
Definition isValidZip (zip : string) : bool :=
  bool_decide (String.length zip = 5%nat)
  && forallb (fun r => negb ((N_of_ascii r <? 48)%N || (57 <? N_of_ascii r)%N))
             (list_ascii_of_string zip).

(** [strings.HasSuffix]. *)
Definition HasSuffix (s suffix : string) : bool :=
  bool_decide (String.length suffix <= String.length s)%nat
  && bool_decide
       (String.substring (String.length s - String.length suffix)
                         (String.length suffix) s = suffix).

Definition allowedHosts : list string := ["openweathermap.org"; "api.weather.gov"].

(** The fixed table of getNWSCoordinates. *)
Definition zipCoords : gmap string (float * float * string) :=
  list_to_map
    [ ("90210", (34.0901, -118.4065, "Beverly Hills"));
      ("10001", (40.7501, -73.9996, "New York"));
      ("60601", (41.8841, -87.6277, "Chicago"));
      ("02108", (42.3581, -71.0636, "Boston"));
      ("94102", (37.7794, -122.4184, "San Francisco"));
      ("98101", (47.6097, -122.3331, "Seattle"));
      ("33101", (25.7743, -80.1937, "Miami"));
      ("75201", (32.7795, -96.8022, "Dallas"));
      ("77001", (29.7604, -95.3698, "Houston"));
      ("85001", (33.4484, -112.0740, "Phoenix")) ]%float.

Definition defaultLocation : float * float * string :=
  (40.7128, -74.0060, "New York")%float.

Definition getNWSCoordinates (zip : string) : outcome (float * float * string) :=
  match zipCoords !! zip with
  | Some coords => Ok coords
  | None => Ok defaultLocation
  end.

Definition celsiusToFahrenheit (celsius : float) : float :=
  (celsius * 9 / 5 + 32)%float.

Section Pipeline.
Context `{GoStd}.

(** Everything outside the process that one ZIP code's processing reads:
    the upstream services keyed by request URL, the clock, the summariser. *)
Record World := {
  geo_api : string -> http_result GeoResponse;
  onecall_api : string -> http_result WeatherResponse;
  nws_points : string -> http_result NWSPointResponse;
  nws_forecast : string -> http_result NWSForecastResponse;
  nws_stations : string -> http_result NWSStationsResponse;
  nws_observation : string -> http_result NWSObservationResponse;
  now_forecast : Time;                  (* time.Now() in getNWSWeather *)
  now_stamp : Time;                     (* time.Now() in GetLocationWeather *)
  OPENAI_API_KEY : string;              (* os.Getenv *)
  (** CreateChatCompletion: an error text, or the choices' contents. *)
  openai_chat : string -> string + list string;
}.

(** [nil] is [Ok tt]. *)
Definition validateURL (rawURL : string) : outcome unit :=
  match url_Parse rawURL with
  | None => Err ErrInvalidURL
  | Some parsedURL =>
      if negb (bool_decide (Scheme parsedURL = "https")) then Err ErrNotHTTPS
      else
        let allowed := existsb (fun host => HasSuffix (Host parsedURL) host) allowedHosts in
        if negb allowed then Err (ErrHostNotAllowed (Host parsedURL))
        else Ok tt
  end.

(** The common tail of every fetch: transport error, status check, decode. *)
Definition readJSON {A} (r : http_result A) (what api : string) : outcome A :=
  match r with
  | NetError => Err (ErrTransport what)
  | Response status body =>
      if negb (status =? 200) then Err (ErrStatus api status)
      else match body with
           | None => Err (ErrDecode what)
           | Some a => Ok a
           end
  end.

(** [http.NewRequest] fails exactly when the URL does not parse. *)
Definition NewRequest (url what : string) : outcome unit :=
  match url_Parse url with
  | None => Err (ErrTransport what)
  | Some _ => Ok tt
  end.

Definition wrapURL {A} (m : outcome A) : outcome A :=
  match m with
  | Err e => Err (ErrWrap "URL validation failed" e)
  | other => other
  end.

Definition getCoordinates (w : World) (zip apiKey : string)
  : outcome (float * float * string) :=
  if decide (apiKey = "") then getNWSCoordinates zip
  else
    let urlStr := geoEndpoint +:+ "?zip=" +:+ zip +:+ ",US&appid=" +:+ apiKey in
    _ ← wrapURL (validateURL urlStr);
    geo ← readJSON (geo_api w urlStr) "geocode" "geocoding";
    Ok (Geo_Lat geo, Geo_Lon geo, Geo_Name geo).

(** [fmt.Sprintf("%s/%.4f,%.4f", nwsPointsEndpoint, lat, lon)] *)
Definition pointsURL (lat lon : float) : string :=
  nwsPointsEndpoint +:+ "/" +:+ Sprintf_4f lat +:+ "," +:+ Sprintf_4f lon.

Definition observationURL (stationID : string) : string :=
  "https://api.weather.gov/stations/" +:+ stationID +:+ "/observations/latest".

(** The request for the points URL is built after [validateURL] parsed
    that URL, so its [http.NewRequest] cannot fail; the three later URLs
    come from upstream bodies and are not validated. *)
Definition getNWSWeather (w : World) (lat lon : float) : outcome WeatherResponse :=
  (* Step 1: the points resource *)
  _ ← wrapURL (validateURL (pointsURL lat lon));
  pointsData ← readJSON (nws_points w (pointsURL lat lon)) "NWS points" "NWS";
  (* Step 2: the forecast *)
  let forecastURL := Forecast_URL pointsData in
  _ ← NewRequest forecastURL "forecast request";
  forecastData ← readJSON (nws_forecast w forecastURL) "NWS forecast" "NWS forecast";
  (* Step 3: the observation stations *)
  let stationsURL := ObservationStations pointsData in
  _ ← NewRequest stationsURL "stations request";
  stationsData ← readJSON (nws_stations w stationsURL) "NWS stations" "NWS stations";
  match Features stationsData with
  | [] => Err ErrNoStations
  | stationID :: _ =>
      (* Step 4: the latest observation *)
      _ ← NewRequest (observationURL stationID) "observation request";
      obsData ← readJSON (nws_observation w (observationURL stationID))
                         "NWS observation" "NWS observations";
      let feelsLike :=
        if negb (PrimFloat.eqb (Obs_HeatIndex obsData) 0)
        then Obs_HeatIndex obsData
        else Obs_Temperature obsData in
      let today := time_Format (now_forecast w) in
      Ok {| Current :=
              {| Current_Temp := celsiusToFahrenheit (Obs_Temperature obsData);
                 Current_FeelsLike := celsiusToFahrenheit feelsLike;
                 Current_Humidity := int_of_float64 (Obs_RelativeHumidity obsData);
                 Current_WindSpeed := (Obs_WindSpeed obsData * 2.237)%float;
                 Current_Weather := [TextDescription obsData] |};
            Daily := nwsDaily (Periods forecastData) today |}
  end.

Definition getWeather (w : World) (lat lon : float) (apiKey : string)
  : outcome WeatherResponse :=
  if decide (apiKey = "") then getNWSWeather w lat lon
  else
    let units := "imperial" in
    let urlStr :=
      weatherEndpoint +:+ "?lat=" +:+ Sprintf_f lat +:+ "&lon=" +:+ Sprintf_f lon
      +:+ "&exclude=minutely,hourly,alerts&units=" +:+ units
      +:+ "&appid=" +:+ apiKey in
    _ ← wrapURL (validateURL urlStr);
    readJSON (onecall_api w urlStr) "weather" "weather".

(** The index expression [xs[0]] on a slice of descriptions. *)
Definition first_description (xs : list string) : outcome string :=
  match xs with
  | d :: _ => Ok d
  | [] => Panic "index out of range [0] with length 0"
  end.

Definition capDays (daily : list DailyEntry) : Z :=
  let days := Z.of_nat (length daily) in
  if 7 <? days then 7 else days.

(** The loop [for i := 1; i < days; i++] of buildForecastText. *)
Fixpoint forecastLines (daily : list DailyEntry) (idx : list nat) (result : string)
  : outcome string :=
  match idx with
  | [] => Ok result
  | i :: idx =>
      match daily !! i with
      | None => Panic "index out of range"
      | Some day =>
          d ← first_description (Daily_Weather day);
          forecastLines daily idx
            (result +:+ Format_MonJan2 (Daily_Dt day) +:+ ": Min "
             +:+ Sprintf_1f (Daily_Temp_Min day) +:+ "°F, Max "
             +:+ Sprintf_1f (Daily_Temp_Max day) +:+ "°F, " +:+ d +:+ nl)
      end
  end.

Definition buildForecastText (city zip : string) (w : WeatherResponse) : outcome string :=
  let result := "Location: " +:+ city +:+ " (ZIP: " +:+ zip +:+ ")" +:+ nl in
  d ← first_description (Current_Weather (Current w));
  let result :=
    result +:+ "Now: " +:+ Sprintf_1f (Current_Temp (Current w)) +:+ "°F, feels like "
    +:+ Sprintf_1f (Current_FeelsLike (Current w)) +:+ "°F, " +:+ d +:+ nl in
  let result :=
    result +:+ "Humidity: " +:+ Sprintf_d (Current_Humidity (Current w)) +:+ "%, Wind: "
    +:+ Sprintf_1f (Current_WindSpeed (Current w)) +:+ " mph" +:+ nl in
  let result := result +:+ "7-Day Forecast:" +:+ nl in
  let days := capDays (Daily w) in
  forecastLines (Daily w) (seq 1 (Z.to_nat (days - 1))) result.

Definition summarizeForecast (w : World) (data : string) : outcome string :=
  if decide (OPENAI_API_KEY w = "") then Ok "Missing OPENAI_API_KEY environment variable"
  else
    match openai_chat w
            ("Based on the following structured weather data, write a 3-5 sentence friendly and clear weather summary:"
             +:+ nl +:+ nl +:+ data) with
    | inl err => Ok ("OpenAI API error: " +:+ err)
    | inr choices => first_description choices          (* resp.Choices[0] *)
    end.

End Pipeline.

(** * The batch driver: configuration and per-ZIP processing *)

Definition FormatJSON : string := "json".
Definition FormatCSV : string := "csv".
Definition FormatText : string := "text".
Definition FormatKafka : string := "kafka".

Record Config := {
  APIKey : string;
  ZipCodes : list string;
  OutputFormat : string;
  OutputPath : string;
  IsMetric : bool;
  KafkaBroker : string;
  KafkaTopic : string;
  Interval : Z;
  Verbose : bool;
}.

(** One element of [WeatherData.Forecast]; [Date] is [time.Unix(day.Dt, 0)],
    kept as its Unix seconds. *)
Record ForecastDay := {
  Date : Z;
  TempMin : float;
  TempMax : float;
  Condition : string;
}.

Definition zeroForecastDay : ForecastDay :=
  {| Date := 0; TempMin := 0; TempMax := 0; Condition := "" |}.

Definition ValidateConfig (config : Config) : option error :=
  if decide (APIKey config = "") then
    Some (ErrConfig "OpenWeatherMap API key is required (use -api-key flag or OWM_API_KEY env var)")
  else if decide (length (ZipCodes config) = 0%nat) then
    Some (ErrConfig "at least one ZIP code is required")
  else
    match List.find (fun zip => negb (isValidZip zip)) (ZipCodes config) with
    | Some zip => Some (ErrConfig ("invalid ZIP code format: " +:+ zip))
    | None =>
        if negb (bool_decide (OutputFormat config ∈
                   [FormatJSON; FormatCSV; FormatText; FormatKafka])) then
          Some (ErrConfig ("invalid output format: " +:+ OutputFormat config))
        else if bool_decide (OutputFormat config = FormatKafka)
                && bool_decide (KafkaBroker config = "") then
          Some (ErrConfig "kafka broker is required when using kafka output format")
        else None
    end.

Section Driver.
Context `{GoStd}.

Record WeatherData := {
  LocationID : string;
  LocationName : string;
  Timestamp : Time;
  WD_Temperature : float;
  WD_FeelsLike : float;
  WD_TempMin : float;
  WD_TempMax : float;
  WD_Humidity : Z;
  WD_WindSpeed : float;
  WD_Condition : string;
  ForecastDays : Z;
  Forecast : list ForecastDay;
  Summary : string;
  WD_IsMetric : bool;
}.

(** The loop [for i := 1; i < forecastDays; i++] of GetLocationWeather,
    writing [Forecast[i-1]]. *)
Fixpoint fillForecast (daily : list DailyEntry) (idx : list nat)
    (forecast : list ForecastDay) : outcome (list ForecastDay) :=
  match idx with
  | [] => Ok forecast
  | i :: idx =>
      match daily !! i with
      | None => Panic "index out of range"
      | Some day =>
          d ← first_description (Daily_Weather day);
          fillForecast daily idx
            (<[(i - 1)%nat := {| Date := Daily_Dt day;
                                 TempMin := Daily_Temp_Min day;
                                 TempMax := Daily_Temp_Max day;
                                 Condition := d |}]> forecast)
      end
  end.

Definition wrapErr {A} (msg : string) (m : outcome A) : outcome A :=
  match m with
  | Err e => Err (ErrWrap msg e)
  | other => other
  end.

Definition GetLocationWeather (w : World) (zip : string) (config : Config)
  : outcome WeatherData :=
  '(lat, lon, city) ← wrapErr "failed to get coordinates"
                        (getCoordinates w zip (APIKey config));
  weather ← wrapErr "failed to get weather" (getWeather w lat lon (APIKey config));
  let condition :=
    match Current_Weather (Current weather) with
    | d :: _ => d
    | [] => ""
    end in
  let forecastDays := capDays (Daily weather) in
  (* make([]struct{...}, forecastDays-1) *)
  if forecastDays - 1 <? 0 then Panic "makeslice: len out of range" else
  forecast ← fillForecast (Daily weather) (seq 1 (Z.to_nat (forecastDays - 1)))
                          (replicate (Z.to_nat (forecastDays - 1)) zeroForecastDay);
  summary ← (if decide (OutputFormat config = FormatText) then
               forecastText ← buildForecastText city zip weather;
               summarizeForecast w forecastText
             else Ok "");
  Ok {| LocationID := zip;
        LocationName := city;
        Timestamp := now_stamp w;
        WD_Temperature := Current_Temp (Current weather);
        WD_FeelsLike := Current_FeelsLike (Current weather);
        WD_TempMin := 0;
        WD_TempMax := 0;
        WD_Humidity := Current_Humidity (Current weather);
        WD_WindSpeed := Current_WindSpeed (Current weather);
        WD_Condition := condition;
        ForecastDays := forecastDays - 1;
        Forecast := forecast;
        Summary := summary;
        WD_IsMetric := IsMetric config |}.

(** The loop of ProcessLocations.  [worlds i] is what the [i]-th iteration
    finds outside the process.  The result is [weatherDataList] and the
    log of skipped ZIP codes; printing the records is left out.  A panic
    is not recovered anywhere: it ends the process. *)
Fixpoint processLoop (config : Config) (worlds : nat -> World) (i : nat)
    (zips : list string) (weatherDataList : list WeatherData)
    (log : list (string * error))
  : outcome (list WeatherData * list (string * error)) :=
  match zips with
  | [] => Ok (weatherDataList, log)
  | zip :: zips =>
      match GetLocationWeather (worlds i) zip config with
      | Err err => processLoop config worlds (S i) zips weatherDataList
                               (log ++ [(zip, err)])            (* continue *)
      | Panic msg => Panic msg
      | Ok weatherData =>
          processLoop config worlds (S i) zips
                      (weatherDataList ++ [weatherData]) log
      end
  end.

Definition ProcessLocations (config : Config) (worlds : nat -> World)
  : outcome (list WeatherData * list (string * error)) :=
  processLoop config worlds 0 (ZipCodes config) [] [].

(** [main] with [Interval = 0]: validate, then one batch.  A validation
    error is fatal ([log.Fatalf]) before any request is made. *)
Definition main_once (config : Config) (worlds : nat -> World)
  : outcome (list WeatherData * list (string * error)) :=
  match ValidateConfig config with
  | Some err => Err (ErrWrap "Configuration error" err)
  | None => ProcessLocations config worlds
  end.

End Driver.

(** * An executable model of the standard library interface

    Used to run the pipeline on concrete inputs.  It covers the well-formed
    shapes only: RFC 3339 timestamps [YYYY-MM-DDTHH:MM:SS(.f+)?(Z|±HH:MM)],
    URLs [scheme://authority/path?query#fragment], fixed-precision decimal
    printing of binary64 values (round half to even), UTC for the local
    zone. *)

Module GoModel.

Record civil := {
  year : Z; month : Z; day : Z;
  hour : Z; minute : Z; second : Z;
  offset : Z;                                  (* seconds east of UTC *)
}.

Definition is_digit (c : ascii) : bool :=
  let n := Z.of_N (N_of_ascii c) in (48 <=? n) && (n <=? 57).

Definition digit (c : ascii) : option Z :=
  if is_digit c then Some (Z.of_N (N_of_ascii c) - 48) else None.

(** Exactly [n] decimal digits. *)
Fixpoint number (n : nat) (acc : Z) (s : string) : option (Z * string) :=
  match n with
  | O => Some (acc, s)
  | S n' =>
      match s with
      | String c r => d ← digit c; number n' (acc * 10 + d) r
      | EmptyString => None
      end
  end.

Definition expect (c : ascii) (s : string) : option string :=
  match s with
  | String c' r => if decide (c = c') then Some r else None
  | EmptyString => None
  end.

Fixpoint skip_digits (s : string) : string :=
  match s with
  | String c r => if is_digit c then skip_digits r else s
  | EmptyString => s
  end.

Definition leap (y : Z) : bool :=
  (y mod 4 =? 0) && (negb (y mod 100 =? 0) || (y mod 400 =? 0)).

Definition days_in (y m : Z) : Z :=
  if m =? 2 then (if leap y then 29 else 28)
  else if (m =? 4) || (m =? 6) || (m =? 9) || (m =? 11) then 30 else 31.

Definition parse_zone (s : string) : option Z :=
  match s with
  | String "Z" EmptyString => Some 0
  | String sg r =>
      sign ← (if decide (sg = "+"%char) then Some 1
              else if decide (sg = "-"%char) then Some (-1) else None);
      '(hh, r) ← number 2 0 r;
      r ← expect ":" r;
      '(mm, r) ← number 2 0 r;
      if decide (r = EmptyString) then
        if (hh <=? 23) && (mm <=? 59) then Some (sign * (hh * 3600 + mm * 60))
        else None
      else None
  | EmptyString => None
  end.

Definition parseRFC3339 (s : string) : option civil :=
  '(y, s) ← number 4 0 s;
  s ← expect "-" s;
  '(mo, s) ← number 2 0 s;
  s ← expect "-" s;
  '(d, s) ← number 2 0 s;
  s ← expect "T" s;
  '(h, s) ← number 2 0 s;
  s ← expect ":" s;
  '(mi, s) ← number 2 0 s;
  s ← expect ":" s;
  '(se, s) ← number 2 0 s;
  s ← (match s with
       | String "." r =>
           match r with
           | String c _ => if is_digit c then Some (skip_digits r) else None
           | EmptyString => None
           end
       | _ => Some s
       end);
  off ← parse_zone s;
  if (1 <=? mo) && (mo <=? 12) && (1 <=? d) && (d <=? days_in y mo)
     && (h <=? 23) && (mi <=? 59) && (se <=? 59)
  then Some {| year := y; month := mo; day := d;
               hour := h; minute := mi; second := se; offset := off |}
  else None.

Definition dec (n : Z) : string :=
  DecimalString.NilZero.string_of_int (Z.to_int n).

Fixpoint zeros (n : nat) : string :=
  match n with O => "" | S n' => String "0" (zeros n') end.

(** Non-negative [n], left-padded with zeros to at least [w] digits. *)
Definition pad (w : nat) (n : Z) : string :=
  let s := dec n in
  zeros (w - String.length s) +:+ s.

Definition formatDate (t : civil) : string :=
  pad 4 (year t) +:+ "-" +:+ pad 2 (month t) +:+ "-" +:+ pad 2 (day t).

Definition days_from_civil (y m d : Z) : Z :=
  let y' := if m <=? 2 then y - 1 else y in
  let era := y' / 400 in
  let yoe := y' - era * 400 in
  let doy := (153 * (m + (if 2 <? m then -3 else 9)) + 2) / 5 + d - 1 in
  let doe := yoe * 365 + yoe / 4 - yoe / 100 + doy in
  era * 146097 + doe - 719468.

Definition unix (t : civil) : Z :=
  days_from_civil (year t) (month t) (day t) * 86400
  + hour t * 3600 + minute t * 60 + second t - offset t.

Definition civil_from_days (z : Z) : Z * Z * Z :=
  let z := z + 719468 in
  let era := z / 146097 in
  let doe := z - era * 146097 in
  let yoe := (doe - doe / 1460 + doe / 36524 - doe / 146096) / 365 in
  let doy := doe - (365 * yoe + yoe / 4 - yoe / 100) in
  let mp := (5 * doy + 2) / 153 in
  let d := doy - (153 * mp + 2) / 5 + 1 in
  let m := if mp <? 10 then mp + 3 else mp - 9 in
  (yoe + era * 400 + (if m <=? 2 then 1 else 0), m, d).

Definition formatMonJan2 (dt : Z) : string :=
  let days := dt / 86400 in
  let '(_, m, d) := civil_from_days days in
  nth (Z.to_nat ((days + 4) mod 7))
      ["Sun"; "Mon"; "Tue"; "Wed"; "Thu"; "Fri"; "Sat"] ""
  +:+ " " +:+
  nth (Z.to_nat (m - 1))
      ["Jan"; "Feb"; "Mar"; "Apr"; "May"; "Jun";
       "Jul"; "Aug"; "Sep"; "Oct"; "Nov"; "Dec"] ""
  +:+ " " +:+ dec d.

(** [strconv.FormatFloat(x, 'f', prec, 64)]: the exact binary value
    rounded to [prec] decimals, ties to even. *)
Definition formatFixed (prec : nat) (x : float) : string :=
  match Prim2SF x with
  | S754_nan => "NaN"
  | S754_infinity s => if s then "-Inf" else "+Inf"
  | S754_zero s =>
      (if s then "-" else "") +:+ "0" +:+
      (if decide (prec = O) then "" else "." +:+ zeros prec)
  | S754_finite s m e =>
      let p := 10 ^ Z.of_nat prec in
      let q :=
        if 0 <=? e then Z.pos m * 2 ^ e * p
        else
          let num := Z.pos m * p in
          let den := 2 ^ (- e) in
          let q := num / den in
          let r := num mod den in
          if den <? 2 * r then q + 1
          else if (den =? 2 * r) && Z.odd q then q + 1 else q in
      (if s then "-" else "") +:+ dec (q / p) +:+
      (if decide (prec = O) then "" else "." +:+ pad prec (q mod p))
  end.

(** [int(x)] as amd64 computes it: truncation, and the minimum int64 for
    NaN, infinities and values out of range. *)
Definition truncInt (x : float) : Z :=
  match Prim2SF x with
  | S754_zero _ => 0
  | S754_finite s m e =>
      let v := if 0 <=? e then Z.pos m * 2 ^ e else Z.pos m / 2 ^ (- e) in
      let v := if s then - v else v in
      if (- 2 ^ 63 <=? v) && (v <? 2 ^ 63) then v else - 2 ^ 63
  | _ => - 2 ^ 63
  end.

Definition lower (c : ascii) : ascii :=
  let n := N_of_ascii c in
  if ((65 <=? n) && (n <=? 90))%N then ascii_of_N (n + 32) else c.

Definition is_alpha (c : ascii) : bool :=
  let n := N_of_ascii (lower c) in ((97 <=? n) && (n <=? 122))%N.

Definition is_scheme_char (c : ascii) : bool :=
  is_alpha c || is_digit c
  || bool_decide (c = "+"%char) || bool_decide (c = "-"%char)
  || bool_decide (c = "."%char).

Definition is_ctl (c : ascii) : bool :=
  let n := N_of_ascii c in ((n <? 32) || (n =? 127))%N.

Definition has_ctl (s : string) : bool :=
  existsb is_ctl (list_ascii_of_string s).

(** The text before the first [c] and the text after it. *)
Fixpoint cut (c : ascii) (s : string) : string * option string :=
  match s with
  | EmptyString => (EmptyString, None)
  | String c' r =>
      if decide (c = c') then (EmptyString, Some r)
      else let '(a, b) := cut c r in (String c' a, b)
  end.

(** [getScheme]: [None] is the "missing protocol scheme" error. *)
Fixpoint getScheme (pre : string) (s : string) (whole : string)
  : option (string * string) :=
  match s with
  | EmptyString => Some (EmptyString, whole)
  | String c r =>
      if decide (c = ":"%char) then
        if decide (pre = EmptyString) then None
        else Some (String.rev pre, r)
      else if is_alpha c then getScheme (String c pre) r whole
      else if is_scheme_char c then
        if decide (pre = EmptyString) then Some (EmptyString, whole)
        else getScheme (String c pre) r whole
      else Some (EmptyString, whole)
  end.

(** The text after the last [c], if [c] occurs. *)
Fixpoint after_last (c : ascii) (s : string) : option string :=
  match s with
  | EmptyString => None
  | String c' r =>
      match after_last c r with
      | Some t => Some t
      | None => if decide (c = c') then Some r else None
      end
  end.

Definition has_prefix (p s : string) : bool := String.prefix p s.

(** [url.Parse] on [scheme://userinfo@host/path?query#fragment]: the
    fragment and the query are cut off, the scheme is lower-cased, the
    authority runs to the next ["/"] and the host follows the last ["@"]. *)
Definition parseURL (rawURL : string) : option URL :=
  if has_ctl rawURL then None else
  let '(u, _) := cut "#" rawURL in
  '(scheme, rest) ← getScheme EmptyString u u;
  let scheme := string_of_list_ascii (map lower (list_ascii_of_string scheme)) in
  let '(rest, _) := cut "?" rest in
  if has_prefix "//" rest then
    let '(authority, _) := cut "/" (String.substring 2 (String.length rest - 2) rest) in
    Some (mkURL scheme (default authority (after_last "@" authority)))
  else Some (mkURL scheme EmptyString).

#[global] Instance std : GoStd := {|
  Time := civil;
  time_Zero := {| year := 1; month := 1; day := 1;
                  hour := 0; minute := 0; second := 0; offset := 0 |};
  time_Parse := parseRFC3339;
  time_Format := formatDate;
  time_Unix := unix;
  url_Parse := parseURL;
  Sprintf_f := formatFixed 6;
  Sprintf_4f := formatFixed 4;
  Sprintf_1f := formatFixed 1;
  Sprintf_d := dec;
  Format_MonJan2 := formatMonJan2;
  int_of_float64 := truncInt;
|}.

End GoModel.

(** * The aggregator in the specification's words *)

(** The test for "the same temperature": identical, or equal for Go's
    [==] (which identifies the two zeros). *)
Definition same_temp (a b : float) : Prop := a = b \/ PrimFloat.eqb a b = true.

(** The running extremum kept by the loop for a strict comparison [R]:
    [R m t] says that [t] replaces the running value [m]. *)
Definition run (R : float -> float -> bool) (m : float) (ts : list float) : float :=
  foldl (fun m t => if R m t then t else m) m ts.

Section AggregatorSpec.
Context `{GoStd}.

(** The periods that parse and whose start date formats to [d], in input
    order, each with its parsed start time. *)
Definition periodsOn (d : string) (periods : list Period) : list (Time * Period) :=
  omap (fun p =>
          match time_Parse (StartTime p) with
          | Some t => if decide (time_Format t = d) then Some (t, p) else None
          | None => None
          end) periods.

(** The date keys of the periods that parse, in input order. *)
Definition dateKeys (periods : list Period) : list string :=
  omap (fun p => time_Format <$> time_Parse (StartTime p)) periods.

(** The bucket of one date as the specification words it: the first period
    seeds, each later one widens. *)
Definition spec_seed (tp : Time * Period) : dayBucket :=
  {| date := tp.1;
     minTemp := Temperature tp.2;
     maxTemp := Temperature tp.2;
     description := ShortForecast tp.2 |}.

Definition spec_widen (b : dayBucket) (tp : Time * Period) : dayBucket :=
  if IsDaytime tp.2 then
    if F64.gt (Temperature tp.2) (maxTemp b)
    then {| date := date b; minTemp := minTemp b;
            maxTemp := Temperature tp.2; description := ShortForecast tp.2 |}
    else b
  else
    if F64.lt (Temperature tp.2) (minTemp b)
    then {| date := date b; minTemp := Temperature tp.2;
            maxTemp := maxTemp b; description := description b |}
    else b.

Definition spec_bucket (l : list (Time * Period)) : option dayBucket :=
  match l with
  | [] => None
  | tp :: rest => Some (foldl spec_widen (spec_seed tp) rest)
  end.

(** The running minimum never exceeds the running maximum. *)
Definition ordered (b : dayBucket) : Prop := F64.gt (minTemp b) (maxTemp b) = false.

Definition strictly_before (a b : string) : Prop := String.le a b /\ a <> b.


(** The date keys in output order: today when it has a bucket, then the
    other keys ascending. *)
Definition outputKeys (ks : list string) (m : gmap string dayBucket)
    (today : string) : list string :=
  (if m !! today is Some _ then [today] else [])
  ++ filter (fun d => d <> today) (sort_Strings ks).

(** The first parsable period of every date, with its start time. *)
Definition firstPeriods (periods : list Period) : gmap string (Time * Period) :=
  foldl (fun m p =>
           match time_Parse (StartTime p) with
           | Some t =>
               match m !! time_Format t with
               | Some _ => m
               | None => <[time_Format t := (t, p)]> m
               end
           | None => m
           end) ∅ periods.

(** The temperatures that can raise the maximum (daytime periods) and
    those that can lower the minimum (nighttime periods). *)
Definition dayTemps (l : list (Time * Period)) : list float :=
  (fun tp => Temperature tp.2) <$> filter (fun tp => IsDaytime tp.2 = true) l.

Definition nightTemps (l : list (Time * Period)) : list float :=
  (fun tp => Temperature tp.2) <$> filter (fun tp => IsDaytime tp.2 = false) l.

(** Two buckets (or two absences) with the same minimum and maximum. *)
Definition same_extremes (o1 o2 : option dayBucket) : Prop :=
  match o1, o2 with
  | Some b1, Some b2 =>
      same_temp (minTemp b1) (minTemp b2) /\ same_temp (maxTemp b1) (maxTemp b2)
  | None, None => True
  | _, _ => False
  end.

End AggregatorSpec.

(** * The rest of the pipeline in the specification's words *)

(** A host inside a domain: the domain itself or a name that ends with a
    dot followed by the domain. *)
Definition hostInDomain (host domain : string) : bool :=
  bool_decide (host = domain) || HasSuffix host ("." +:+ domain).

(** What one daily entry becomes in [WeatherData.Forecast]. *)
Definition forecastOf (day : DailyEntry) : ForecastDay :=
  {| Date := Daily_Dt day;
     TempMin := Daily_Temp_Min day;
     TempMax := Daily_Temp_Max day;
     Condition := hd "" (Daily_Weather day) |}.

(** The summariser hands back a text: no key is configured, or every
    completion it returns has at least one choice. *)
Definition summaryReturns `{GoStd} (w : World) : Prop :=
  OPENAI_API_KEY w = "" \/ forall prompt, openai_chat w prompt <> inr [].

(** * Concrete inputs *)

Definition mkPeriod (start : string) (isDay : bool) (temp : float) (short : string)
  : Period :=
  {| StartTime := start; EndTime := ""; Temperature := temp;
     Period_WindSpeed := ""; WindDirection := ""; ShortForecast := short;
     DetailedForecast := ""; IsDaytime := isDay |}.

(** [(day1,08:00,day,70°), (day1,20:00,night,55°), (day2,08:00,day,72°)] *)
Definition example_periods : list Period :=
  [ mkPeriod "2024-05-01T08:00:00-04:00" true 70 "Sunny";
    mkPeriod "2024-05-01T20:00:00-04:00" false 55 "Clear";
    mkPeriod "2024-05-02T08:00:00-04:00" true 72 "Cloudy" ].

(** Eight daytime periods on eight consecutive dates. *)
Definition eight_days : list Period :=
  [ mkPeriod "2024-05-01T08:00:00-04:00" true 70 "Sunny";
    mkPeriod "2024-05-02T08:00:00-04:00" true 71 "Sunny";
    mkPeriod "2024-05-03T08:00:00-04:00" true 72 "Sunny";
    mkPeriod "2024-05-04T08:00:00-04:00" true 73 "Sunny";
    mkPeriod "2024-05-05T08:00:00-04:00" true 74 "Sunny";
    mkPeriod "2024-05-06T08:00:00-04:00" true 75 "Sunny";
    mkPeriod "2024-05-07T08:00:00-04:00" true 76 "Sunny";
    mkPeriod "2024-05-08T08:00:00-04:00" true 77 "Sunny" ].

(** A cool morning and a warmer evening of one date, in both orders. *)
Definition day_then_night : list Period :=
  [ mkPeriod "2024-05-01T06:00:00-04:00" true 50 "Fog";
    mkPeriod "2024-05-01T18:00:00-04:00" false 60 "Clear" ].

Definition night_then_day : list Period :=
  [ mkPeriod "2024-05-01T18:00:00-04:00" false 60 "Clear";
    mkPeriod "2024-05-01T06:00:00-04:00" true 50 "Fog" ].

(** One seed followed by two later periods, the later two in both orders. *)
Definition seed_then_ab : list Period :=
  [ mkPeriod "2024-05-01T00:00:00-04:00" false 58 "Clear";
    mkPeriod "2024-05-01T06:00:00-04:00" true 70 "Sunny";
    mkPeriod "2024-05-01T18:00:00-04:00" false 55 "Clear" ].

Definition seed_then_ba : list Period :=
  [ mkPeriod "2024-05-01T00:00:00-04:00" false 58 "Clear";
    mkPeriod "2024-05-01T18:00:00-04:00" false 55 "Clear";
    mkPeriod "2024-05-01T06:00:00-04:00" true 70 "Sunny" ].

(** A period whose timestamp is not RFC 3339. *)
Definition garbled : Period := mkPeriod "tomorrow morning" true 99 "Hot".

(** An upstream that answers nothing. *)
Definition silent : @World GoModel.std :=
  {| geo_api := fun _ => NetError;
     onecall_api := fun _ => NetError;
     nws_points := fun _ => NetError;
     nws_forecast := fun _ => NetError;
     nws_stations := fun _ => NetError;
     nws_observation := fun _ => NetError;
     now_forecast := {| GoModel.year := 2024; GoModel.month := 4; GoModel.day := 30;
                        GoModel.hour := 12; GoModel.minute := 0; GoModel.second := 0;
                        GoModel.offset := 0 |};
     now_stamp := {| GoModel.year := 2024; GoModel.month := 4; GoModel.day := 30;
                     GoModel.hour := 12; GoModel.minute := 0; GoModel.second := 1;
                     GoModel.offset := 0 |};
     OPENAI_API_KEY := "";
     openai_chat := fun _ => inl "unreachable" |}.

(** The fallback chain answering 200 four times; the clock reads
    2024-04-30, the day before the first forecast period. *)
Definition nws_up : @World GoModel.std :=
  {| geo_api := geo_api silent;
     onecall_api := onecall_api silent;
     nws_points := fun _ =>
       Response 200 (Some {| Forecast_URL := "https://api.weather.gov/gridpoints/OKX/33,35/forecast";
                             ForecastHourly := "https://api.weather.gov/gridpoints/OKX/33,35/forecast/hourly";
                             ObservationStations := "https://api.weather.gov/gridpoints/OKX/33,35/stations";
                             City := "New York" |});
     nws_forecast := fun _ => Response 200 (Some {| Periods := example_periods |});
     nws_stations := fun _ => Response 200 (Some {| Features := ["KNYC"] |});
     nws_observation := fun _ =>
       Response 200 (Some {| Obs_Temperature := 20; Obs_WindSpeed := 5;
                             Obs_RelativeHumidity := 50; Obs_HeatIndex := 0;
                             TextDescription := "Clear" |});
     now_forecast := now_forecast silent;
     now_stamp := now_stamp silent;
     OPENAI_API_KEY := "";
     openai_chat := openai_chat silent |}.

Definition geoReply : http_result GeoResponse :=
  Response 200 (Some {| Geo_Lat := 34.0901; Geo_Lon := -118.4065;
                        Geo_Name := "Beverly Hills" |}).

(** The primary provider answering 200 with a body that decodes to a
    response without daily entries (the body [{}]). *)
Definition owm_empty : @World GoModel.std :=
  {| geo_api := fun _ => geoReply;
     onecall_api := fun _ => Response 200 (Some {| Current := zeroCurrent; Daily := [] |});
     nws_points := nws_points silent;
     nws_forecast := nws_forecast silent;
     nws_stations := nws_stations silent;
     nws_observation := nws_observation silent;
     now_forecast := now_forecast silent;
     now_stamp := now_stamp silent;
     OPENAI_API_KEY := "";
     openai_chat := openai_chat silent |}.

(** The primary provider answering 200 with two daily entries, the second
    without a weather description. *)
Definition owm_no_description : @World GoModel.std :=
  {| geo_api := fun _ => geoReply;
     onecall_api := fun _ =>
       Response 200
         (Some {| Current := zeroCurrent;
                  Daily := [ {| Daily_Dt := 1714564800; Daily_Temp_Min := 55;
                                Daily_Temp_Max := 70; Daily_Weather := ["clear sky"] |};
                             {| Daily_Dt := 1714651200; Daily_Temp_Min := 56;
                                Daily_Temp_Max := 72; Daily_Weather := [] |} ] |});
     nws_points := nws_points silent;
     nws_forecast := nws_forecast silent;
     nws_stations := nws_stations silent;
     nws_observation := nws_observation silent;
     now_forecast := now_forecast silent;
     now_stamp := now_stamp silent;
     OPENAI_API_KEY := "";
     openai_chat := openai_chat silent |}.

Definition batch_json (key : string) (zips : list string) : Config :=
  {| APIKey := key; ZipCodes := zips; OutputFormat := FormatJSON;
     OutputPath := ""; IsMetric := false; KafkaBroker := "localhost:9092";
     KafkaTopic := "weather-data"; Interval := 0; Verbose := false |}.

(** A URL on a host that merely ends with the letters of an allow-listed
    domain. *)
Definition lookalike_url : string :=
  "https://evilopenweathermap.org/geo/1.0/zip?zip=10001,US&appid=k".

(** * More of the program: flags, output, the key-only variant *)

Definition outcome_map {A B} (f : A -> B) (m : outcome A) : outcome B :=
  match m with
  | Ok a => Ok (f a)
  | Err e => Err e
  | Panic msg => Panic msg
  end.

(** The user message summarizeForecast sends. *)
Definition summaryPrompt (data : string) : string :=
  "Based on the following structured weather data, write a 3-5 sentence friendly and clear weather summary:"
  +:+ nl +:+ nl +:+ data.

Definition setIsMetric (b : bool) (c : Config) : Config :=
  {| APIKey := APIKey c; ZipCodes := ZipCodes c; OutputFormat := OutputFormat c;
     OutputPath := OutputPath c; IsMetric := b; KafkaBroker := KafkaBroker c;
     KafkaTopic := KafkaTopic c; Interval := Interval c; Verbose := Verbose c |}.

(** ** ParseFlags *)

(** What the [flag] package holds after [flag.Parse()]: the value of every
    flag (given or default; the default of [-api-key] is the environment's
    [OWM_API_KEY]) and the positional arguments. *)
Record Flags := {
  flag_api_key : string;
  flag_zip_codes : string;
  flag_format : string;
  flag_output : string;
  flag_metric : bool;
  flag_kafka_broker : string;
  flag_kafka_topic : string;
  flag_interval : Z;
  flag_verbose : bool;
  flag_args : list string;
}.

(** [strings.Split(s, sep)] for a one-byte separator: every occurrence
    cuts, empty pieces are kept, the empty string gives one empty piece. *)
Fixpoint strings_Split (s : string) (sep : ascii) : list string :=
  match s with
  | EmptyString => [EmptyString]
  | String c r =>
      if decide (c = sep) then EmptyString :: strings_Split r sep
      else match strings_Split r sep with
           | piece :: pieces => String c piece :: pieces
           | [] => [String c EmptyString]
           end
  end.

(** int64 arithmetic wraps. *)
Definition wrap64 (z : Z) : Z := (z + 2 ^ 63) mod 2 ^ 64 - 2 ^ 63.

(** [time.Second], in nanoseconds. *)
Definition Second : Z := 1000000000.

Definition ParseFlags (f : Flags) : Config :=
  {| APIKey := flag_api_key f;
     ZipCodes :=
       if decide (flag_zip_codes f = "") then
         match flag_args f with
         | arg0 :: _ => [arg0]
         | [] => []
         end
       else strings_Split (flag_zip_codes f) ",";
     OutputFormat := flag_format f;
     OutputPath := flag_output f;
     IsMetric := flag_metric f;
     KafkaBroker := flag_kafka_broker f;
     KafkaTopic := flag_kafka_topic f;
     Interval :=
       if 0 <? flag_interval f then wrap64 (flag_interval f * Second) else 0;
     Verbose := flag_verbose f |}.

(** ** validateURL of the variant without the fallback (first part of
    weather.go) *)

Section KeyOnly.
Context `{GoStd}.

Definition validateURL_keyonly (rawURL : string) : outcome unit :=
  match url_Parse rawURL with
  | None => Err ErrInvalidURL
  | Some parsedURL =>
      if negb (bool_decide (Scheme parsedURL = "https")) then Err ErrNotHTTPS
      else if negb (HasSuffix (Host parsedURL) "openweathermap.org")
      then Err (ErrHostNotAllowed (Host parsedURL))
      else Ok tt
  end.

End KeyOnly.

(** ** Output *)

Section Output.
Context `{GoStd}.

(** What the output routines do, as a trace.  Text goes to standard
    output; the JSON and CSV writers go to [path], the empty path being
    standard output. *)
Inductive output : Type :=
| TextReport (data : WeatherData) (unit windUnit : string)
| KafkaPlaceholder (data : WeatherData)       (* two log lines, nothing sent *)
| JSONObject (path : string) (data : WeatherData)
| JSONArray (path : string) (dataList : list WeatherData)
| CSVTable (path : string) (dataList : list WeatherData)
| CreateFailed (path : string).

Definition OutputTextFormat (data : WeatherData) (config : Config) : list output :=
  let unit := if IsMetric config then "°C" else "°F" in
  let windUnit := if IsMetric config then "m/s" else "mph" in
  [TextReport data unit windUnit].

Definition SendToKafka (data : WeatherData) (config : Config) : list output :=
  [KafkaPlaceholder data].

(** [create path] tells whether [os.Create(path)] succeeds. *)
Definition OutputJSONFormat (create : string -> bool) (dataList : list WeatherData)
    (config : Config) : list output :=
  if negb (bool_decide (OutputPath config = "")) && negb (create (OutputPath config))
  then [CreateFailed (OutputPath config)]
  else
    match dataList with
    | [data] => [JSONObject (OutputPath config) data]      (* len(dataList) == 1 *)
    | _ => [JSONArray (OutputPath config) dataList]
    end.

Definition OutputCSVFormat (create : string -> bool) (dataList : list WeatherData)
    (config : Config) : list output :=
  if negb (bool_decide (OutputPath config = "")) && negb (create (OutputPath config))
  then [CreateFailed (OutputPath config)]
  else [CSVTable (OutputPath config) dataList].

Definition OutputWeatherData (data : WeatherData) (config : Config) : list output :=
  if decide (OutputFormat config = FormatText) then OutputTextFormat data config
  else if decide (OutputFormat config = FormatJSON) then []
  else if decide (OutputFormat config = FormatCSV) then []
  else if decide (OutputFormat config = FormatKafka) then SendToKafka data config
  else [].

Definition OutputWeatherDataBatch (create : string -> bool)
    (dataList : list WeatherData) (config : Config) : list output :=
  if decide (OutputFormat config = FormatJSON) then OutputJSONFormat create dataList config
  else if decide (OutputFormat config = FormatCSV) then OutputCSVFormat create dataList config
  else [].

Definition batched (config : Config) : bool :=
  bool_decide (OutputFormat config = FormatJSON)
  || bool_decide (OutputFormat config = FormatCSV).

(** ProcessLocations with what it writes.  The trace is kept also when an
    iteration panics: what was printed before stays printed. *)
Fixpoint processLoopOut (config : Config) (worlds : nat -> World) (i : nat)
    (zips : list string) (weatherDataList : list WeatherData)
    (log : list (string * error)) (trace : list output)
  : list output * outcome (list WeatherData * list (string * error)) :=
  match zips with
  | [] => (trace, Ok (weatherDataList, log))
  | zip :: zips =>
      match GetLocationWeather (worlds i) zip config with
      | Err err => processLoopOut config worlds (S i) zips weatherDataList
                                  (log ++ [(zip, err)]) trace
      | Panic msg => (trace, Panic msg)
      | Ok weatherData =>
          processLoopOut config worlds (S i) zips
            (weatherDataList ++ [weatherData]) log
            (if negb (batched config)
             then trace ++ OutputWeatherData weatherData config
             else trace)
      end
  end.

Definition ProcessLocationsOut (create : string -> bool) (config : Config)
    (worlds : nat -> World)
  : list output * outcome (list WeatherData * list (string * error)) :=
  match processLoopOut config worlds 0 (ZipCodes config) [] [] [] with
  | (trace, Ok (weatherDataList, log)) =>
      if (0 <? length weatherDataList)%nat && batched config
      then (trace ++ OutputWeatherDataBatch create weatherDataList config,
            Ok (weatherDataList, log))
      else (trace, Ok (weatherDataList, log))
  | other => other
  end.

(** The outcome of every iteration, in order. *)
Definition iterations (config : Config) (worlds : nat -> World) (i : nat)
    (zips : list string) : list (string * outcome WeatherData) :=
  imap (fun j zip => (zip, GetLocationWeather (worlds (i + j)%nat) zip config)) zips.

Fixpoint firstPanic (runs : list (string * outcome WeatherData)) : option string :=
  match runs with
  | [] => None
  | (_, Panic msg) :: _ => Some msg
  | _ :: runs => firstPanic runs
  end.

(** The iterations that ran to their end: those before the first panic. *)
Fixpoint beforePanic (runs : list (string * outcome WeatherData))
  : list (string * outcome WeatherData) :=
  match runs with
  | [] => []
  | (_, Panic _) :: _ => []
  | r :: runs => r :: beforePanic runs
  end.

Definition collected (runs : list (string * outcome WeatherData)) : list WeatherData :=
  omap (fun r => match r.2 with Ok wd => Some wd | _ => None end) runs.

Definition skipped (runs : list (string * outcome WeatherData)) : list (string * error) :=
  omap (fun r => match r.2 with Err e => Some (r.1, e) | _ => None end) runs.

End Output.

(** ** Statements about buckets *)

Section BucketSpec.
Context `{GoStd}.

(** Where the fields of a bucket come from, as the loop goes on: [seen]
    are the periods of the date met so far, the seed first. *)
Definition traced (seed : Time * Period) (seen : list (Time * Period))
    (b : dayBucket) : Prop :=
  date b = seed.1
  /\ (exists tp, tp ∈ seen /\ (tp = seed \/ IsDaytime tp.2 = true)
                 /\ maxTemp b = Temperature tp.2
                 /\ description b = ShortForecast tp.2)
  /\ (exists tq, tq ∈ seen /\ (tq = seed \/ IsDaytime tq.2 = false)
                 /\ minTemp b = Temperature tq.2).

End BucketSpec.

Section RecordUpdates.
Context `{GoStd}.

Definition withIsMetric (b : bool) (wd : WeatherData) : WeatherData :=
  {| LocationID := LocationID wd; LocationName := LocationName wd;
     Timestamp := Timestamp wd; WD_Temperature := WD_Temperature wd;
     WD_FeelsLike := WD_FeelsLike wd; WD_TempMin := WD_TempMin wd;
     WD_TempMax := WD_TempMax wd; WD_Humidity := WD_Humidity wd;
     WD_WindSpeed := WD_WindSpeed wd; WD_Condition := WD_Condition wd;
     ForecastDays := ForecastDays wd; Forecast := Forecast wd;
     Summary := Summary wd; WD_IsMetric := b |}.

End RecordUpdates.

(** The fallback chain answering 200 four times, the points body naming a
    forecast URL on a foreign host over plain HTTP. *)
Definition nws_redirected : @World GoModel.std :=
  {| geo_api := geo_api silent;
     onecall_api := onecall_api silent;
     nws_points := fun _ =>
       Response 200 (Some {| Forecast_URL := "http://forecast.example.net/f";
                             ForecastHourly := "";
                             ObservationStations := "https://api.weather.gov/gridpoints/OKX/33,35/stations";
                             City := "New York" |});
     nws_forecast := nws_forecast nws_up;
     nws_stations := nws_stations nws_up;
     nws_observation := nws_observation nws_up;
     now_forecast := now_forecast silent;
     now_stamp := now_stamp silent;
     OPENAI_API_KEY := "";
     openai_chat := openai_chat silent |}.

Definition batch_text (key : string) (zips : list string) : Config :=
  {| APIKey := key; ZipCodes := zips; OutputFormat := FormatText;
     OutputPath := ""; IsMetric := false; KafkaBroker := "localhost:9092";
     KafkaTopic := "weather-data"; Interval := 0; Verbose := false |}.

(** The primary provider answering 200 with one current description and
    two daily entries. *)
Definition owm_up : @World GoModel.std :=
  {| geo_api := fun _ => geoReply;
     onecall_api := fun _ =>
       Response 200
         (Some {| Current :=
                    {| Current_Temp := 68; Current_FeelsLike := 66;
                       Current_Humidity := 40; Current_WindSpeed := 5;
                       Current_Weather := ["clear sky"] |};
                  Daily := [ {| Daily_Dt := 1714564800; Daily_Temp_Min := 55;
                                Daily_Temp_Max := 70; Daily_Weather := ["clear sky"] |};
                             {| Daily_Dt := 1714651200; Daily_Temp_Min := 56;
                                Daily_Temp_Max := 72; Daily_Weather := ["light rain"] |} ] |});
     nws_points := nws_points silent;
     nws_forecast := nws_forecast silent;
     nws_stations := nws_stations silent;
     nws_observation := nws_observation silent;
     now_forecast := now_forecast silent;
     now_stamp := now_stamp silent;
     OPENAI_API_KEY := "";
     openai_chat := openai_chat silent |}.

(** The fallback chain answering 200 with a forecast whose only period
    has a start time that does not parse. *)
Definition nws_garbled : @World GoModel.std :=
  {| geo_api := geo_api silent;
     onecall_api := onecall_api silent;
     nws_points := nws_points nws_up;
     nws_forecast := fun _ => Response 200 (Some {| Periods := [garbled] |});
     nws_stations := nws_stations nws_up;
     nws_observation := nws_observation nws_up;
     now_forecast := now_forecast silent;
     now_stamp := now_stamp silent;
     OPENAI_API_KEY := "";
     openai_chat := openai_chat silent |}.

(** The first ZIP code of a batch meets a silent upstream, the later ones
    the primary provider. *)
Definition first_fails (i : nat) : @World GoModel.std :=
  match i with
  | O => silent
  | S _ => owm_up
  end.

(* ================================================================== *)
(** * Proofs *)
(* ================================================================== *)

(** ** float64 comparisons *)

Module F64Facts.
Import F64.

Lemma SFltb_rank x y :
  SFltb x y = true <-> sf_nan x = false /\ sf_nan y = false /\ lex_lt (rank x) (rank y).
Proof.
  unfold SFltb, lex_lt.
  destruct x as [sx|sx| |sx mx ex], y as [sy|sy| |sy my ey]; simpl;
    repeat match goal with s : bool |- _ => destruct s end; simpl;
    try (split; [discriminate | intros (_ & _ & ?); lia]);
    try (split; [intros _; repeat split; lia | reflexivity]);
    try (split; [discriminate | intros (? & ? & ?); discriminate]).
  - rewrite Pos.compare_cont_spec; simpl.
    destruct (Z.compare_spec ex ey), (Pos.compare_spec mx my); simpl;
      split; try discriminate; try (intros _; repeat split; lia);
      intros (_ & _ & ?); lia.
  - rewrite Pos.compare_cont_spec; simpl.
    destruct (Z.compare_spec ex ey), (Pos.compare_spec mx my); simpl;
      split; try discriminate; try (intros _; repeat split; lia);
      intros (_ & _ & ?); lia.
Qed.

Lemma SFeqb_rank x y :
  SFeqb x y = true <-> sf_nan x = false /\ sf_nan y = false /\ rank x = rank y.
Proof.
  unfold SFeqb.
  destruct x as [sx|sx| |sx mx ex], y as [sy|sy| |sy my ey]; simpl;
    repeat match goal with s : bool |- _ => destruct s end; simpl;
    try (split; [discriminate | intros (_ & _ & ?); congruence]);
    try (split; [intros _; repeat split; congruence | reflexivity]);
    try (split; [discriminate | intros (? & ? & ?); discriminate]).
  - rewrite Pos.compare_cont_spec; simpl.
    destruct (Z.compare_spec ex ey), (Pos.compare_spec mx my); simpl;
      split; try discriminate; try (intros _; repeat split; congruence);
      intros (_ & _ & [= ? ?]); lia.
  - rewrite Pos.compare_cont_spec; simpl.
    destruct (Z.compare_spec ex ey), (Pos.compare_spec mx my); simpl;
      split; try discriminate;
      try (intros _; repeat split; subst; reflexivity);
      intros (_ & _ & [= ? ?]); lia.
Qed.

Lemma lt_irrefl a : lt a a = false.
Proof.
  unfold lt. rewrite FloatAxioms.ltb_spec. apply not_true_iff_false.
  rewrite SFltb_rank. unfold lex_lt. intros (_ & _ & ?). lia.
Qed.

Lemma lt_trans a b c : lt a b = true -> lt b c = true -> lt a c = true.
Proof.
  unfold lt. rewrite !FloatAxioms.ltb_spec, !SFltb_rank. unfold lex_lt.
  intros (? & ? & ?) (? & ? & ?). repeat split; auto. lia.
Qed.

Lemma lt_not_nan a b : lt a b = true -> is_nan a = false /\ is_nan b = false.
Proof.
  unfold lt, is_nan. rewrite FloatAxioms.ltb_spec, !FloatAxioms.eqb_spec, SFltb_rank.
  intros (? & ? & _).
  split; apply negb_false_iff, SFeqb_rank; auto.
Qed.

(** Two non-NaN values neither of which is below the other are equal for
    Go's [==] (they may still differ in the sign of zero). *)
Lemma incomparable_eqb a b :
  is_nan a = false -> is_nan b = false ->
  lt a b = false -> lt b a = false -> PrimFloat.eqb a b = true.
Proof.
  unfold lt, is_nan. rewrite !FloatAxioms.ltb_spec, !FloatAxioms.eqb_spec.
  intros Ha%negb_false_iff Hb%negb_false_iff Hab%not_true_iff_false Hba%not_true_iff_false.
  apply SFeqb_rank in Ha as (Ha & _ & _). apply SFeqb_rank in Hb as (Hb & _ & _).
  rewrite SFltb_rank in Hab, Hba. apply SFeqb_rank. repeat split; auto.
  unfold lex_lt in *.
  destruct (rank (Prim2SF a)) as [a1 [a2 a3]], (rank (Prim2SF b)) as [b1 [b2 b3]].
  simpl in *.
  assert (¬ (a1 < b1 ∨ a1 = b1 ∧ (a2 < b2 ∨ a2 = b2 ∧ a3 < b3))) by tauto.
  assert (¬ (b1 < a1 ∨ b1 = a1 ∧ (b2 < a2 ∨ b2 = a2 ∧ b3 < a3))) by tauto.
  assert (a1 = b1) by lia. assert (a2 = b2) by lia. assert (a3 = b3) by lia.
  congruence.
Qed.

End F64Facts.

(** ** The aggregator *)

Section AggregatorFacts.
Context `{GoStd}.

Lemma updateDay_widen day t period : updateDay day period = spec_widen day (t, period).
Proof.
  unfold updateDay, spec_widen; simpl.
  destruct (IsDaytime period); simpl.
  - destruct (F64.gt _ _); reflexivity.
  - reflexivity.
Qed.

Lemma periodsOn_app d l1 l2 : periodsOn d (l1 ++ l2) = periodsOn d l1 ++ periodsOn d l2.
Proof. apply omap_app. Qed.

(** The loop, started from any map, read at one key. *)
Lemma foldl_addPeriod_lookup periods : forall (m : gmap string dayBucket) d,
  foldl addPeriod m periods !! d =
  match m !! d with
  | Some b => Some (foldl spec_widen b (periodsOn d periods))
  | None => spec_bucket (periodsOn d periods)
  end.
Proof.
  induction periods as [|p periods IH]; intros m d; simpl.
  - destruct (m !! d); reflexivity.
  - rewrite IH. unfold addPeriod, periodsOn; simpl.
    destruct (time_Parse (StartTime p)) as [t|]; [|reflexivity].
    destruct (decide (time_Format t = d)) as [<-|Hne].
    + rewrite lookup_insert_eq.
      destruct (m !! time_Format t) as [b|]; simpl.
      * by rewrite (updateDay_widen b t p).
      * reflexivity.
    + rewrite lookup_insert_ne by done. reflexivity.
Qed.

Lemma groupPeriods_lookup periods d :
  groupPeriods periods !! d = spec_bucket (periodsOn d periods).
Proof. unfold groupPeriods. by rewrite foldl_addPeriod_lookup, lookup_empty. Qed.

Lemma periodsOn_nil d periods : periodsOn d periods = [] <-> d ∉ dateKeys periods.
Proof.
  unfold periodsOn, dateKeys. induction periods as [|p ps IH]; simpl.
  - split; [intros _; apply not_elem_of_nil | done].
  - destruct (time_Parse (StartTime p)) as [t|]; simpl; [|done].
    destruct (decide (time_Format t = d)) as [<-|Hne].
    + split; [discriminate | intros Hn; exfalso; apply Hn; left].
    + rewrite not_elem_of_cons. clear -IH Hne.
      split; [intros ?%IH; auto | intros [_ ?]; by apply IH].
Qed.

Lemma periodsOn_Forall d periods :
  Forall (fun tp => time_Format tp.1 = d /\ time_Parse (StartTime tp.2) = Some tp.1
                    /\ tp.2 ∈ periods)
         (periodsOn d periods).
Proof.
  apply Forall_forall. intros [t p] (p' & Hin & Hp)%list_elem_of_omap.
  destruct (time_Parse (StartTime p')) as [t'|] eqn:Ht; [|done].
  destruct (decide (time_Format t' = d)); simplify_eq. done.
Qed.

Lemma groupPeriods_dom periods :
  dom (groupPeriods periods) = list_to_set (dateKeys periods).
Proof.
  apply set_eq; intros d.
  rewrite elem_of_dom, elem_of_list_to_set, groupPeriods_lookup.
  destruct (periodsOn d periods) as [|tp l] eqn:E; simpl.
  - apply periodsOn_nil in E. split; [by intros [? ?] | done].
  - split; [intros _ | by eauto].
    destruct (decide (d ∈ dateKeys periods)) as [|Hn]; [done|].
    apply periodsOn_nil in Hn. congruence.
Qed.

Lemma spec_seed_ordered tp : ordered (spec_seed tp).
Proof. apply F64Facts.lt_irrefl. Qed.

Lemma spec_widen_ordered b tp : ordered b -> ordered (spec_widen b tp).
Proof.
  unfold ordered, spec_widen. intros Hb.
  destruct (IsDaytime tp.2).
  - destruct (F64.gt (Temperature tp.2) (maxTemp b)) eqn:Hgt; simpl; [|done].
    apply not_true_iff_false. intros Hlt.
    pose proof (F64Facts.lt_trans (maxTemp b) (Temperature tp.2) (minTemp b) Hgt Hlt).
    unfold F64.gt, F64.lt in *. congruence.
  - destruct (F64.lt (Temperature tp.2) (minTemp b)) eqn:Hlt; simpl; [|done].
    apply not_true_iff_false. intros Hgt.
    pose proof (F64Facts.lt_trans (maxTemp b) (Temperature tp.2) (minTemp b) Hgt Hlt).
    unfold F64.gt, F64.lt in *. congruence.
Qed.

Lemma foldl_widen_ordered l : forall b, ordered b -> ordered (foldl spec_widen b l).
Proof. induction l; simpl; auto using spec_widen_ordered. Qed.

Lemma spec_widen_date b tp : date (spec_widen b tp) = date b.
Proof.
  unfold spec_widen.
  destruct (IsDaytime tp.2); [destruct (F64.gt _ _)|destruct (F64.lt _ _)]; done.
Qed.

Lemma foldl_widen_date l : forall b, date (foldl spec_widen b l) = date b.
Proof.
  induction l as [|tp l IH]; intros b; simpl; [done|].
  by rewrite IH, spec_widen_date.
Qed.

Lemma groupPeriods_ordered periods d b :
  groupPeriods periods !! d = Some b -> ordered b.
Proof.
  rewrite groupPeriods_lookup. destruct (periodsOn d periods); simpl; [done|].
  intros [= <-]. apply foldl_widen_ordered, spec_seed_ordered.
Qed.

(** A bucket is stored under the date its first period starts on. *)
Lemma groupPeriods_date periods d b :
  groupPeriods periods !! d = Some b -> time_Format (date b) = d.
Proof.
  rewrite groupPeriods_lookup.
  pose proof (periodsOn_Forall d periods) as HF.
  destruct (periodsOn d periods) as [|tp l]; simpl; [done|].
  intros [= <-]. rewrite foldl_widen_date. simpl.
  by apply Forall_cons in HF as [[? _] _].
Qed.

(** ** The output order *)

Lemma sort_Strings_perm l : sort_Strings l ≡ₚ l.
Proof. apply merge_sort_Permutation. Qed.

Lemma sort_Strings_sorted l : StronglySorted String.le (sort_Strings l).
Proof. apply StronglySorted_merge_sort; apply _. Qed.

(** The order in which the map is ranged over does not matter. *)
Lemma sort_Strings_order l1 l2 : l1 ≡ₚ l2 -> sort_Strings l1 = sort_Strings l2.
Proof.
  intros Hp. apply (StronglySorted_unique String.le);
    [apply sort_Strings_sorted..|].
  by rewrite !sort_Strings_perm.
Qed.

Lemma dailyFrom_order ks1 ks2 (m : gmap string dayBucket) today :
  ks1 ≡ₚ ks2 -> dailyFrom ks1 m today = dailyFrom ks2 m today.
Proof. intros Hp. unfold dailyFrom. by rewrite (sort_Strings_order _ _ Hp). Qed.

Lemma sorted_NoDup_strict l :
  StronglySorted String.le l -> NoDup l -> StronglySorted strictly_before l.
Proof.
  induction 1 as [|x l Hs IH Hx]; intros Hnd; [constructor|].
  apply NoDup_cons in Hnd as [Hnin Hnd]. constructor; [auto|].
  apply Forall_forall. intros y Hy. split.
  - by eapply Forall_forall in Hx.
  - intros ->. done.
Qed.

Lemma StronglySorted_filter {A} (R : relation A) (P : A -> Prop)
    `{!forall x, Decision (P x)} l :
  StronglySorted R l -> StronglySorted R (filter P l).
Proof.
  induction 1 as [|x l Hs IH Hx]; [constructor|].
  rewrite filter_cons. case_decide; [|done].
  constructor; [done|].
  apply Forall_forall. intros y [_ Hy]%list_elem_of_filter.
  by eapply Forall_forall in Hx.
Qed.

Lemma dailyFrom_keyed ks (m : gmap string dayBucket) today :
  dailyFrom ks m today =
  (fun d => (d, mkDaily (default zeroBucket (m !! d)))) <$> outputKeys ks m today.
Proof.
  unfold dailyFrom, outputKeys. rewrite fmap_app. f_equal.
  - destruct (m !! today) eqn:E; simpl; [by rewrite E|done].
  - induction (sort_Strings ks) as [|d l IH]; simpl; [done|].
    rewrite filter_cons. destruct (decide (d = today)) as [->|Hne].
    + rewrite decide_False by (intros Hn; by apply Hn). done.
    + rewrite decide_True by done. simpl. by rewrite IH.
Qed.

Lemma dailyFrom_keys ks (m : gmap string dayBucket) today :
  (dailyFrom ks m today).*1 = outputKeys ks m today.
Proof.
  rewrite dailyFrom_keyed, <-list_fmap_compose.
  rewrite <-(list_fmap_id (outputKeys ks m today)) at 2.
  by apply list_fmap_ext.
Qed.

Lemma outputKeys_perm (m : gmap string dayBucket) today :
  outputKeys (map_to_list m).*1 m today ≡ₚ (map_to_list m).*1.
Proof.
  unfold outputKeys.
  set (ks := (map_to_list m).*1).
  assert (NoDup ks) as Hnd by apply NoDup_fst_map_to_list.
  assert (forall d, d ∈ ks <-> is_Some (m !! d)) as Hks.
  { intros d. unfold ks. rewrite list_elem_of_fmap. split.
    - intros ([d' b] & -> & Hin%elem_of_map_to_list). eauto.
    - intros [b Hb]. exists (d, b). by rewrite elem_of_map_to_list. }
  rewrite <-(sort_Strings_perm ks) at 2.
  rewrite <-(filter_app_complement (fun d => d <> today) (sort_Strings ks)) at 2.
  rewrite (comm (++) (filter _ _)). f_equiv.
  apply NoDup_Permutation.
  - destruct (m !! today); [apply NoDup_singleton | constructor].
  - apply NoDup_filter. by rewrite sort_Strings_perm.
  - intros d. rewrite list_elem_of_filter, sort_Strings_perm, Hks.
    destruct (m !! today) as [b|] eqn:E.
    + rewrite list_elem_of_singleton. split.
      * intros ->. split; [by intros Hn; apply Hn | by rewrite E].
      * intros [Hd _]. by destruct (decide (d = today)).
    + split; [by intros ?%elem_of_nil|].
      intros [Hd [b Hb]]. destruct (decide (d = today)) as [->|]; [congruence|done].
Qed.

Lemma outputKeys_NoDup (m : gmap string dayBucket) today :
  NoDup (outputKeys (map_to_list m).*1 m today).
Proof. rewrite outputKeys_perm. apply NoDup_fst_map_to_list. Qed.

Lemma outputKeys_length (m : gmap string dayBucket) today :
  length (outputKeys (map_to_list m).*1 m today) = size m.
Proof. by rewrite outputKeys_perm, length_fmap, length_map_to_list. Qed.

Lemma outputKeys_rest_sorted ks (m : gmap string dayBucket) today :
  NoDup ks ->
  StronglySorted strictly_before (filter (fun d => d <> today) (sort_Strings ks)).
Proof.
  intros Hnd. apply StronglySorted_filter, sorted_NoDup_strict.
  - apply sort_Strings_sorted.
  - by rewrite sort_Strings_perm.
Qed.

End AggregatorFacts.

(** ** Running extrema *)

Section RunningExtremum.
Variable R : float -> float -> bool.
Hypothesis R_irrefl : forall a, R a a = false.
Hypothesis R_trans : forall a b c, R a b = true -> R b c = true -> R a c = true.
Hypothesis R_not_nan : forall a b, R a b = true -> F64.is_nan a = false /\ F64.is_nan b = false.
Hypothesis R_incomparable : forall a b,
  F64.is_nan a = false -> F64.is_nan b = false ->
  R a b = false -> R b a = false -> PrimFloat.eqb a b = true.

Lemma run_dominates ts : forall m seen,
  Forall (fun x => R m x = false) seen ->
  Forall (fun x => R (run R m ts) x = false) (seen ++ ts).
Proof.
  induction ts as [|t ts IH]; intros m seen Hseen; simpl.
  - by rewrite app_nil_r.
  - rewrite (assoc_L _ seen [t] ts : seen ++ t :: ts = (seen ++ [t]) ++ ts).
    apply IH. apply Forall_app. split.
    + destruct (R m t) eqn:Hmt; [|done].
      eapply Forall_impl; [exact Hseen|]. intros x Hx. simpl in Hx.
      apply not_true_iff_false. intros Htx.
      pose proof (R_trans _ _ _ Hmt Htx). congruence.
    + apply Forall_singleton. destruct (R m t) eqn:Hmt; [apply R_irrefl | done].
Qed.

Lemma run_dominates_all ts m :
  Forall (fun x => R (run R m ts) x = false) (m :: ts).
Proof. apply (run_dominates ts m [m]), Forall_singleton, R_irrefl. Qed.

Lemma run_elem ts : forall m, run R m ts ∈ m :: ts.
Proof.
  induction ts as [|t ts IH]; intros m; simpl; [left|].
  specialize (IH (if R m t then t else m)).
  apply elem_of_cons in IH as [->|IH].
  - destruct (R m t); [right; left | left].
  - right. by right.
Qed.

Lemma run_seed_or_above ts : forall m,
  run R m ts = m \/ exists x, R x (run R m ts) = true.
Proof.
  induction ts as [|t ts IH]; intros m; simpl; [by left|].
  destruct (R m t) eqn:Hmt.
  - destruct (IH t) as [->|?]; [right; eauto | by right].
  - apply IH.
Qed.

Lemma run_nan_seed ts m : F64.is_nan m = true -> run R m ts = m.
Proof.
  intros Hm. induction ts as [|t ts IH]; simpl; [done|].
  destruct (R m t) eqn:Hmt; [|done].
  apply R_not_nan in Hmt as [? _]. congruence.
Qed.

Lemma run_not_nan ts m : F64.is_nan m = false -> F64.is_nan (run R m ts) = false.
Proof.
  intros Hm. destruct (run_seed_or_above ts m) as [->|[x Hx]]; [done|].
  by apply R_not_nan in Hx as [_ ?].
Qed.

(** The running extremum does not depend on the order of the values
    after the seed. *)
Lemma run_perm ts1 ts2 m : ts1 ≡ₚ ts2 -> same_temp (run R m ts1) (run R m ts2).
Proof.
  intros Hp. destruct (F64.is_nan m) eqn:Hm.
  - left. by rewrite !run_nan_seed.
  - right. apply R_incomparable; [by apply run_not_nan..| |].
    + pose proof (run_dominates_all ts1 m) as Hd.
      pose proof (run_elem ts2 m) as He.
      apply (elem_of_Permutation_proper _ (m :: ts1) (m :: ts2)) in He;
        [|by f_equiv].
      by eapply Forall_forall in Hd.
    + pose proof (run_dominates_all ts2 m) as Hd.
      pose proof (run_elem ts1 m) as He.
      apply (elem_of_Permutation_proper _ (m :: ts1) (m :: ts2)) in He;
        [|by f_equiv].
      by eapply Forall_forall in Hd.
Qed.

End RunningExtremum.

(** ** Minimum and maximum of a bucket in closed form *)

Section Extremes.
Context `{GoStd}.

Lemma foldl_widen_max l : forall b,
  maxTemp (foldl spec_widen b l) = run F64.lt (maxTemp b) (dayTemps l).
Proof.
  unfold dayTemps, run.
  induction l as [|tp l IH]; intros b; simpl; [done|].
  rewrite IH, filter_cons. unfold spec_widen.
  destruct (IsDaytime tp.2) eqn:Hd; simpl.
  - unfold F64.gt, F64.lt.
    by destruct (PrimFloat.ltb (maxTemp b) (Temperature tp.2)); simpl.
  - by destruct (F64.lt (Temperature tp.2) (minTemp b)); simpl.
Qed.

Lemma foldl_widen_min l : forall b,
  minTemp (foldl spec_widen b l) = run (flip F64.lt) (minTemp b) (nightTemps l).
Proof.
  unfold nightTemps, run.
  induction l as [|tp l IH]; intros b; simpl; [done|].
  rewrite IH, filter_cons. unfold spec_widen.
  destruct (IsDaytime tp.2) eqn:Hd; simpl.
  - by destruct (F64.gt (Temperature tp.2) (maxTemp b)); simpl.
  - unfold flip. by destruct (F64.lt (Temperature tp.2) (minTemp b)); simpl.
Qed.

Lemma run_max_perm ts1 ts2 m :
  ts1 ≡ₚ ts2 -> same_temp (run F64.lt m ts1) (run F64.lt m ts2).
Proof.
  apply run_perm.
  - apply F64Facts.lt_irrefl.
  - apply F64Facts.lt_trans.
  - apply F64Facts.lt_not_nan.
  - apply F64Facts.incomparable_eqb.
Qed.

Lemma run_min_perm ts1 ts2 m :
  ts1 ≡ₚ ts2 -> same_temp (run (flip F64.lt) m ts1) (run (flip F64.lt) m ts2).
Proof.
  apply run_perm; unfold flip.
  - apply F64Facts.lt_irrefl.
  - intros a b c Hab Hbc. exact (F64Facts.lt_trans c b a Hbc Hab).
  - intros a b Hab. by apply F64Facts.lt_not_nan in Hab as [? ?].
  - intros a b Ha Hb Hab Hba. by apply F64Facts.incomparable_eqb.
Qed.

Lemma widen_perm b r1 r2 :
  r1 ≡ₚ r2 ->
  same_temp (minTemp (foldl spec_widen b r1)) (minTemp (foldl spec_widen b r2))
  /\ same_temp (maxTemp (foldl spec_widen b r1)) (maxTemp (foldl spec_widen b r2)).
Proof.
  intros Hp. rewrite !foldl_widen_min, !foldl_widen_max. split.
  - apply run_min_perm. unfold nightTemps. by rewrite Hp.
  - apply run_max_perm. unfold dayTemps. by rewrite Hp.
Qed.

Lemma periodsOn_perm d l1 l2 : l1 ≡ₚ l2 -> periodsOn d l1 ≡ₚ periodsOn d l2.
Proof. intros Hp. unfold periodsOn. by rewrite Hp. Qed.

Lemma nwsDaily_length periods today :
  length (nwsDaily periods today) = size (groupPeriods periods).
Proof.
  unfold nwsDaily, nwsDailyKeyed.
  rewrite length_fmap, <-(length_fmap fst), dailyFrom_keys.
  apply outputKeys_length.
Qed.

Lemma firstPeriods_lookup periods d :
  firstPeriods periods !! d = head (periodsOn d periods).
Proof.
  unfold firstPeriods.
  enough (forall m : gmap string (Time * Period),
    foldl (fun m p =>
             match time_Parse (StartTime p) with
             | Some t =>
                 match m !! time_Format t with
                 | Some _ => m
                 | None => <[time_Format t := (t, p)]> m
                 end
             | None => m
             end) m periods !! d
    = match m !! d with
      | Some x => Some x
      | None => head (periodsOn d periods)
      end) as Hgen.
  { by rewrite Hgen, lookup_empty. }
  induction periods as [|p periods IH]; intros m; simpl.
  - by destruct (m !! d).
  - rewrite IH. unfold periodsOn. simpl.
    destruct (time_Parse (StartTime p)) as [t|]; [|done].
    destruct (decide (time_Format t = d)) as [<-|Hne].
    + destruct (m !! time_Format t) as [x|] eqn:E; [by rewrite E|].
      by rewrite lookup_insert_eq.
    + destruct (m !! time_Format t); [done|].
      by rewrite lookup_insert_ne.
Qed.

Lemma groupPeriods_is_Some periods d :
  is_Some (groupPeriods periods !! d) <-> d ∈ dateKeys periods.
Proof.
  rewrite <-elem_of_dom, groupPeriods_dom. apply elem_of_list_to_set.
Qed.

End Extremes.

(** ** The daily aggregator: the statements of the specification *)

(** C1.  The bucket the loop leaves under a date is the one the
    specification describes: seeded by the first period that starts on that
    date (minimum = maximum = its temperature, condition = its short
    forecast), then widened by each later period of the date, a daytime one
    raising the maximum and replacing the condition only when strictly
    warmer, a nighttime one lowering the minimum only when strictly colder.
    On the specification's example the first day gets 55/70 and the second
    72/72. *)
Theorem bucket_is_seed_then_widen :
  (forall (std : GoStd) (periods : list Period) (d : string),
      groupPeriods periods !! d = spec_bucket (periodsOn d periods))
  /\ (let m := @groupPeriods GoModel.std example_periods in
      ((minTemp <$> m !! "2024-05-01", maxTemp <$> m !! "2024-05-01")
         = (Some 55, Some 70)%float)
      /\ ((minTemp <$> m !! "2024-05-02", maxTemp <$> m !! "2024-05-02")
         = (Some 72, Some 72)%float)
      /\ (fun e => (Daily_Temp_Min e, Daily_Temp_Max e))
           <$> @nwsDaily GoModel.std example_periods "2024-05-01"
         = [(55, 70); (72, 72)]%float).
Proof.
  split.
  - intros std periods d. apply groupPeriods_lookup.
  - vm_compute. repeat split; reflexivity.
Qed.

(** C2 (counterexample).  Eight periods on eight dates give eight daily
    entries: the aggregation does not cap its output at seven. *)
Lemma eight_dates_eight_entries :
  length (@nwsDaily GoModel.std eight_days "2024-05-01") = 8%nat
  /\ ~ (length (@nwsDaily GoModel.std eight_days "2024-05-01") <= 7)%nat.
Proof. split; [by vm_compute | vm_compute; lia]. Qed.

(** C2 (amended).  The daily sequence has exactly one entry per distinct
    calendar date among the periods whose timestamp parses; no cap is
    applied by the aggregation. *)
Theorem daily_length_is_distinct_dates :
  forall (std : GoStd) (periods : list Period) (today : string),
    length (nwsDaily periods today)
    = size (list_to_set (dateKeys periods) : gset string).
Proof.
  intros std periods today.
  by rewrite nwsDaily_length, <-groupPeriods_dom, size_dom.
Qed.

(** C3 (counterexample).  Swapping the two periods of one date changes
    both extremes: the first period seeds both, whatever its flag. *)
Lemma seed_order_matters :
  day_then_night ≡ₚ night_then_day
  /\ (let m := @groupPeriods GoModel.std day_then_night in
      (minTemp <$> m !! "2024-05-01", maxTemp <$> m !! "2024-05-01")
      = (Some 50, Some 50)%float)
  /\ (let m := @groupPeriods GoModel.std night_then_day in
      (minTemp <$> m !! "2024-05-01", maxTemp <$> m !! "2024-05-01")
      = (Some 60, Some 60)%float)
  /\ PrimFloat.eqb 50 60 = false.
Proof.
  split; [apply Permutation_swap|]. vm_compute. repeat split; reflexivity.
Qed.

(** C3 (amended).  Reordering the periods so that every date keeps the same
    first parsable period leaves the minimum and the maximum of every date
    unchanged (as float64 values compared with [==]). *)
Theorem extremes_stable_when_seed_kept :
  forall (std : GoStd) (l1 l2 : list Period),
    l1 ≡ₚ l2 ->
    firstPeriods l1 = firstPeriods l2 ->
    forall d, same_extremes (groupPeriods l1 !! d) (groupPeriods l2 !! d).
Proof.
  intros std l1 l2 Hp Hfirst d. rewrite !groupPeriods_lookup.
  pose proof (periodsOn_perm d _ _ Hp) as Hpd.
  assert (head (periodsOn d l1) = head (periodsOn d l2)) as Hhead.
  { by rewrite <-!firstPeriods_lookup, Hfirst. }
  destruct (periodsOn d l1) as [|tp1 r1], (periodsOn d l2) as [|tp2 r2];
    simpl in *; try done.
  injection Hhead as <-. apply Permutation_cons_inv in Hpd.
  by apply widen_perm.
Qed.

Lemma extremes_stable_example :
  same_extremes (@groupPeriods GoModel.std seed_then_ab !! "2024-05-01")
                (@groupPeriods GoModel.std seed_then_ba !! "2024-05-01").
Proof.
  apply (extremes_stable_when_seed_kept GoModel.std seed_then_ab seed_then_ba).
  - apply perm_skip, Permutation_swap.
  - vm_compute. reflexivity.
Defined.

(** C4.  The daily sequence carries one entry per date key, today's first
    when it has a bucket and the other dates after it in strictly
    ascending order; every entry is read from the bucket stored under its
    date, and no entry has a minimum above its maximum. *)
Theorem daily_invariant :
  forall (std : GoStd) (periods : list Period) (today : string),
    let out := nwsDailyKeyed (groupPeriods periods) today in
    nwsDaily periods today = out.*2
    /\ NoDup out.*1
    /\ (exists rest,
          out.*1 = (if decide (today ∈ dateKeys periods) then [today] else []) ++ rest
          /\ StronglySorted strictly_before rest
          /\ today ∉ rest)
    /\ Forall (fun de =>
                 exists b, groupPeriods periods !! de.1 = Some b
                           /\ time_Format (date b) = de.1
                           /\ de.2 = mkDaily b
                           /\ F64.gt (Daily_Temp_Min de.2) (Daily_Temp_Max de.2) = false)
              out.
Proof.
  intros std periods today out. subst out. unfold nwsDailyKeyed.
  set (m := groupPeriods periods). set (ks := (map_to_list m).*1).
  assert (NoDup ks) as Hks by apply NoDup_fst_map_to_list.
  split; [done|]. rewrite dailyFrom_keys. split; [apply outputKeys_NoDup|]. split.
  - exists (filter (fun d => d <> today) (sort_Strings ks)). split; [|split].
    + unfold outputKeys. f_equal.
      destruct (m !! today) as [b|] eqn:E; case_decide as Hin; try done; exfalso.
      * apply Hin, groupPeriods_is_Some. by exists b.
      * apply groupPeriods_is_Some in Hin as [b Hb]. fold m in Hb. congruence.
    + by apply outputKeys_rest_sorted.
    + by intros [Hn _]%list_elem_of_filter.
  - rewrite dailyFrom_keyed. apply Forall_fmap, Forall_forall. intros d Hd. simpl.
    assert (d ∈ ks) as Hdk.
    { eapply elem_of_Permutation_proper; [|exact Hd].
      symmetry. apply outputKeys_perm. }
    apply list_elem_of_fmap in Hdk as ([d' b] & -> & Hb%elem_of_map_to_list).
    simpl. exists b. rewrite Hb. simpl. repeat split; [|].
    + by apply (groupPeriods_date periods).
    + by apply (groupPeriods_ordered periods d').
Qed.

(** C8.  A period whose start timestamp does not parse leaves no trace:
    every date group, the whole map and the daily sequence are what they
    would be without it.  The aggregation is a total function, so it
    returns in either case. *)
Theorem unparsable_period_is_dropped :
  forall (std : GoStd) (l1 l2 : list Period) (p : Period) (today : string),
    time_Parse (StartTime p) = None ->
    (forall d, periodsOn d (l1 ++ p :: l2) = periodsOn d (l1 ++ l2))
    /\ groupPeriods (l1 ++ p :: l2) = groupPeriods (l1 ++ l2)
    /\ nwsDaily (l1 ++ p :: l2) today = nwsDaily (l1 ++ l2) today.
Proof.
  intros std l1 l2 p today Hp.
  assert (groupPeriods (l1 ++ p :: l2) = groupPeriods (l1 ++ l2)) as Hm.
  { unfold groupPeriods. rewrite !foldl_app. simpl.
    unfold addPeriod at 2. by rewrite Hp. }
  split; [|split; [done|]].
  - intros d. rewrite !periodsOn_app. f_equal.
    unfold periodsOn. simpl. by rewrite Hp.
  - unfold nwsDaily. by rewrite Hm.
Qed.

Lemma unparsable_period_example :
  @time_Parse GoModel.std (StartTime garbled) = None
  /\ @nwsDaily GoModel.std ([mkPeriod "2024-05-01T08:00:00-04:00" true 70 "Sunny"]
                            ++ garbled :: [mkPeriod "2024-05-01T20:00:00-04:00" false 55 "Clear"])
                           "2024-05-01"
     = @nwsDaily GoModel.std ([mkPeriod "2024-05-01T08:00:00-04:00" true 70 "Sunny"]
                              ++ [mkPeriod "2024-05-01T20:00:00-04:00" false 55 "Clear"])
                             "2024-05-01".
Proof.
  split; [reflexivity|].
  apply (unparsable_period_is_dropped GoModel.std). reflexivity.
Defined.

(** ** The fetch strategies *)

(** [HasSuffix s suffix] holds exactly when [s] is some text followed by
    [suffix]. *)
Lemma substring_all s : String.substring 0 (String.length s) s = s.
Proof. induction s as [|c s IH]; simpl; [done | by rewrite IH]. Qed.

Lemma length_append p x :
  String.length (p +:+ x) = (String.length p + String.length x)%nat.
Proof. induction p as [|c p IH]; simpl; [done | by rewrite IH]. Qed.

Lemma substring_skip p x :
  String.substring (String.length p) (String.length x) (p +:+ x) = x.
Proof. induction p as [|c p IH]; simpl; [apply substring_all | done]. Qed.

Lemma substring_split s : forall n,
  (n <= String.length s)%nat ->
  s = String.substring 0 n s +:+ String.substring n (String.length s - n) s.
Proof.
  induction s as [|c s IH]; intros [|n] Hn; simpl in *; try done; try lia.
  - by rewrite substring_all.
  - change (String c s = String c (String.substring 0 n s
                 +:+ String.substring n (String.length s - n) s)).
    by rewrite <-IH by lia.
Qed.

Lemma HasSuffix_spec s suffix :
  HasSuffix s suffix = true <-> exists p, s = p +:+ suffix.
Proof.
  unfold HasSuffix. rewrite andb_true_iff, !bool_decide_eq_true. split.
  - intros [Hlen Hsub].
    exists (String.substring 0 (String.length s - String.length suffix) s).
    pose proof (substring_split s (String.length s - String.length suffix)) as Hs.
    replace (String.length s - (String.length s - String.length suffix))%nat
      with (String.length suffix) in Hs by lia.
    rewrite Hsub in Hs. apply Hs. lia.
  - intros [p ->]. rewrite length_append. split; [lia|].
    replace (String.length p + String.length suffix - String.length suffix)%nat
      with (String.length p) by lia.
    apply substring_skip.
Qed.

Section PipelineFacts.
Context `{GoStd}.

Lemma readJSON_Ok {A} (r : http_result A) what api a :
  readJSON r what api = Ok a <-> r = Response 200 (Some a).
Proof.
  unfold readJSON. split.
  - destruct r as [|status [body|]]; try discriminate;
      destruct (status =? 200) eqn:E; simpl; try discriminate.
    apply Z.eqb_eq in E as ->. by intros [= ->].
  - by intros ->.
Qed.

Lemma readJSON_no_panic {A} (r : http_result A) what api msg :
  readJSON r what api <> Panic msg.
Proof.
  unfold readJSON. destruct r as [|status [body|]]; try done;
    by destruct (status =? 200).
Qed.

Lemma wrapURL_Ok {A} (m : outcome A) a : wrapURL m = Ok a <-> m = Ok a.
Proof. by destruct m. Qed.

Lemma NewRequest_Ok url what : NewRequest url what = Ok tt <-> is_Some (url_Parse url).
Proof.
  unfold NewRequest. destruct (url_Parse url) as [u|]; split; done.
Qed.

(** [validateURL] accepts exactly the URLs that parse, whose scheme is
    "https" and whose host has an allow-listed string as a suffix. *)
Lemma validateURL_Ok_iff rawURL :
  validateURL rawURL = Ok tt <->
  exists u, url_Parse rawURL = Some u
            /\ Scheme u = "https"
            /\ (HasSuffix (Host u) "openweathermap.org" = true
                \/ HasSuffix (Host u) "api.weather.gov" = true).
Proof.
  unfold validateURL, allowedHosts. destruct (url_Parse rawURL) as [u|]; simpl.
  - case_bool_decide as Hs; simpl.
    + rewrite orb_false_r.
      destruct (HasSuffix (Host u) "openweathermap.org") eqn:E1;
        [simpl; split; [intros _; exists u; by auto | done]|].
      destruct (HasSuffix (Host u) "api.weather.gov") eqn:E2;
        [simpl; split; [intros _; exists u; by auto | done]|].
      simpl. split; [done|].
      intros (u' & [= <-] & _ & [?|?]); congruence.
    + split; [done|]. by intros (u' & [= <-] & ? & _).
  - split; [done|]. by intros (u' & ? & _).
Qed.

(** The four-call chain succeeds exactly when every call answers 200 with
    a decodable body, the three follow-up URLs parse and a station is
    listed; the snapshot is then built from those bodies. *)
Lemma getNWSWeather_Ok_iff (w : World) lat lon weather :
  getNWSWeather w lat lon = Ok weather <->
  exists pointsData forecastData stationsData stationID rest obsData,
    validateURL (pointsURL lat lon) = Ok tt
    /\ nws_points w (pointsURL lat lon) = Response 200 (Some pointsData)
    /\ is_Some (url_Parse (Forecast_URL pointsData))
    /\ nws_forecast w (Forecast_URL pointsData) = Response 200 (Some forecastData)
    /\ is_Some (url_Parse (ObservationStations pointsData))
    /\ nws_stations w (ObservationStations pointsData) = Response 200 (Some stationsData)
    /\ Features stationsData = stationID :: rest
    /\ is_Some (url_Parse (observationURL stationID))
    /\ nws_observation w (observationURL stationID) = Response 200 (Some obsData)
    /\ weather =
       {| Current :=
            {| Current_Temp := celsiusToFahrenheit (Obs_Temperature obsData);
               Current_FeelsLike :=
                 celsiusToFahrenheit
                   (if negb (PrimFloat.eqb (Obs_HeatIndex obsData) 0)
                    then Obs_HeatIndex obsData else Obs_Temperature obsData);
               Current_Humidity := int_of_float64 (Obs_RelativeHumidity obsData);
               Current_WindSpeed := (Obs_WindSpeed obsData * 2.237)%float;
               Current_Weather := [TextDescription obsData] |};
          Daily := nwsDaily (Periods forecastData) (time_Format (now_forecast w)) |}.
Proof.
  unfold getNWSWeather. split.
  - destruct (wrapURL (validateURL (pointsURL lat lon))) as [[]| |] eqn:E1;
      try discriminate. apply (proj1 (wrapURL_Ok _ _)) in E1. simpl.
    destruct (readJSON (nws_points w _) _ _) as [pd| |] eqn:E2; try discriminate.
    apply readJSON_Ok in E2. simpl.
    destruct (NewRequest (Forecast_URL pd) _) as [[]| |] eqn:E3; try discriminate.
    apply NewRequest_Ok in E3. simpl.
    destruct (readJSON (nws_forecast w _) _ _) as [fd| |] eqn:E4; try discriminate.
    apply readJSON_Ok in E4. simpl.
    destruct (NewRequest (ObservationStations pd) _) as [[]| |] eqn:E5; try discriminate.
    apply NewRequest_Ok in E5. simpl.
    destruct (readJSON (nws_stations w _) _ _) as [sd| |] eqn:E6; try discriminate.
    apply readJSON_Ok in E6. simpl.
    destruct (Features sd) as [|st rest] eqn:E7; try discriminate.
    destruct (NewRequest (observationURL st) _) as [[]| |] eqn:E8; try discriminate.
    apply NewRequest_Ok in E8. simpl.
    destruct (readJSON (nws_observation w _) _ _) as [od| |] eqn:E9; try discriminate.
    apply readJSON_Ok in E9. simpl.
    intros [= <-]. exists pd, fd, sd, st, rest, od. by repeat split.
  - intros (pd & fd & sd & st & rest & od & E1 & E2 & E3 & E4 & E5 & E6 & E7 & E8 & E9 & ->).
    rewrite E1. simpl. rewrite E2. simpl.
    apply (proj2 (NewRequest_Ok _ "forecast request")) in E3. rewrite E3. simpl. rewrite E4. simpl.
    apply (proj2 (NewRequest_Ok _ "stations request")) in E5. rewrite E5. simpl. rewrite E6. simpl.
    rewrite E7.
    apply (NewRequest_Ok _ "observation request") in E8. rewrite E8. simpl. rewrite E9.
    reflexivity.
Qed.

(** What the fallback strategy returns never makes the consumers index
    an empty description list. *)
Lemma getNWSWeather_descriptions (w : World) lat lon weather :
  getNWSWeather w lat lon = Ok weather ->
  Current_Weather (Current weather) <> []
  /\ Forall (fun day => Daily_Weather day <> []) (Daily weather).
Proof.
  intros (pd & fd & sd & st & rest & od & _ & _ & _ & _ & _ & _ & _ & _ & _ & ->)
    %getNWSWeather_Ok_iff. simpl. split; [done|].
  unfold nwsDaily, nwsDailyKeyed. rewrite dailyFrom_keyed, <-list_fmap_compose.
  apply Forall_fmap, Forall_forall. by intros d _.
Qed.

End PipelineFacts.

(** ** Conversion, validation and coordinates: the statements *)

(** C5.  [celsiusToFahrenheit c] is [c*9/5 + 32] in float64 arithmetic,
    evaluated left to right; 0 maps to 32 and 100 to 212.  On the fallback
    path, when the four calls answer 200 with decodable bodies, the
    snapshot's current temperature is that conversion of the observation's
    Celsius value, and every snapshot the fallback path returns has that
    form. *)
Theorem fahrenheit_of_observation :
  (forall c : float, celsiusToFahrenheit c = (c * 9 / 5 + 32)%float)
  /\ celsiusToFahrenheit 0 = 32%float
  /\ celsiusToFahrenheit 100 = 212%float
  /\ (forall (std : GoStd) (w : World) (lat lon : float)
        pointsData forecastData stationsData stationID rest obsData,
        validateURL (pointsURL lat lon) = Ok tt ->
        nws_points w (pointsURL lat lon) = Response 200 (Some pointsData) ->
        is_Some (url_Parse (Forecast_URL pointsData)) ->
        nws_forecast w (Forecast_URL pointsData) = Response 200 (Some forecastData) ->
        is_Some (url_Parse (ObservationStations pointsData)) ->
        nws_stations w (ObservationStations pointsData) = Response 200 (Some stationsData) ->
        Features stationsData = stationID :: rest ->
        is_Some (url_Parse (observationURL stationID)) ->
        nws_observation w (observationURL stationID) = Response 200 (Some obsData) ->
        exists weather,
          getNWSWeather w lat lon = Ok weather
          /\ Current_Temp (Current weather)
             = celsiusToFahrenheit (Obs_Temperature obsData))
  /\ (forall (std : GoStd) (w : World) (lat lon : float) weather,
        getNWSWeather w lat lon = Ok weather ->
        exists stationID obsData,
          nws_observation w (observationURL stationID) = Response 200 (Some obsData)
          /\ Current_Temp (Current weather)
             = celsiusToFahrenheit (Obs_Temperature obsData)).
Proof.
  split; [reflexivity|]. split; [reflexivity|]. split; [reflexivity|]. split.
  - intros std w lat lon pd fd sd st rest od E1 E2 E3 E4 E5 E6 E7 E8 E9.
    eexists. split.
    + apply getNWSWeather_Ok_iff. exists pd, fd, sd, st, rest, od.
      repeat split; done.
    + reflexivity.
  - intros std w lat lon weather
      (pd & fd & sd & st & rest & od & _ & _ & _ & _ & _ & _ & _ & _ & E9 & ->)
      %getNWSWeather_Ok_iff.
    by exists st, od.
Qed.

Lemma fahrenheit_of_observation_example :
  exists weather,
    getNWSWeather nws_up 40.7128 (-74.0060) = Ok weather
    /\ Current_Temp (Current weather) = celsiusToFahrenheit 20.
Proof.
  destruct fahrenheit_of_observation as (_ & _ & _ & Hchain & _).
  eapply (Hchain GoModel.std nws_up 40.7128%float (-74.0060)%float
            _ _ _ "KNYC" []
            {| Obs_Temperature := 20; Obs_WindSpeed := 5;
               Obs_RelativeHumidity := 50; Obs_HeatIndex := 0;
               TextDescription := "Clear" |});
    try (vm_compute; reflexivity); vm_compute; eauto.
Defined.

(** C6 (what the code does).  [validateURL] accepts an HTTPS URL whose host
    lies in neither allow-listed domain but ends with the letters of one:
    the host test is a plain string suffix test. *)
Theorem validateURL_accepts_lookalike_host :
  @url_Parse GoModel.std lookalike_url
    = Some {| Scheme := "https"; Host := "evilopenweathermap.org" |}
  /\ @validateURL GoModel.std lookalike_url = Ok tt
  /\ existsb (hostInDomain "evilopenweathermap.org") allowedHosts = false
  /\ @validateURL GoModel.std "https://api.weather.gov:443/points/40.7128,-74.0060"
     = Err (ErrHostNotAllowed "api.weather.gov:443").
Proof. vm_compute. repeat split; reflexivity. Qed.

(** C7.  Without a credential, coordinate resolution always returns a
    location and never an error: the table's entry for a listed ZIP code,
    and the one default location (New York) for every other string.  The
    table has ten entries. *)
Theorem credential_free_coordinates :
  forall (std : GoStd) (w : World) (zip : string),
    getCoordinates w zip ""
    = Ok (match zipCoords !! zip with
          | Some entry => entry
          | None => (40.7128, -74.0060, "New York")%float
          end)
    /\ size zipCoords = 10%nat
    /\ zipCoords !! "90210" = Some (34.0901, -118.4065, "Beverly Hills")%float.
Proof.
  intros std w zip. split; [|split; reflexivity].
  unfold getCoordinates. rewrite decide_True by done.
  unfold getNWSCoordinates. by destruct (zipCoords !! zip).
Qed.

(** ** The batch driver *)

Section DriverFacts.
Context `{GoStd}.

Lemma first_description_hd xs : xs <> [] -> first_description xs = Ok (hd "" xs).
Proof. by destruct xs. Qed.

Lemma capDays_min daily : capDays daily = Z.of_nat (min (length daily) 7).
Proof. unfold capDays. case_match; lia. Qed.

(** The index loop, started at index [S k] with the first [k] slots
    already written, fills the next [j] slots. *)
Lemma fillForecast_from daily j : forall k,
  (k + j <= length (drop 1 daily))%nat ->
  Forall (fun day => Daily_Weather day <> []) (take j (drop k (drop 1 daily))) ->
  fillForecast daily (seq (S k) j)
    ((forecastOf <$> take k (drop 1 daily)) ++ replicate j zeroForecastDay)
  = Ok (forecastOf <$> take (k + j) (drop 1 daily)).
Proof.
  induction j as [|j IH]; intros k Hlen Hne; simpl.
  - by rewrite app_nil_r, Nat.add_0_r.
  - destruct (lookup_lt_is_Some_2 (drop 1 daily) k) as [day Hday]; [lia|].
    assert (daily !! S k = Some day) as ->.
    { by rewrite lookup_drop in Hday. }
    rewrite (drop_S _ _ _ Hday) in Hne. simpl in Hne.
    apply Forall_cons in Hne as [Hd Hne].
    rewrite (first_description_hd _ Hd). simpl.
    rewrite Nat.sub_0_r.
    assert (length (forecastOf <$> take k (drop 1 daily)) = k) as Hk.
    { rewrite length_fmap, length_take. lia. }
    rewrite insert_app_r_alt by lia. rewrite Hk, Nat.sub_diag. simpl.
    rewrite (cons_middle _ (forecastOf <$> _)), (assoc_L (++)).
    replace ((forecastOf <$> take k (drop 1 daily)) ++ [forecastOf day])
      with (forecastOf <$> take (S k) (drop 1 daily))
      by (by rewrite (take_S_r _ _ _ Hday), fmap_app).
    rewrite IH by (done || lia). f_equal. f_equal. f_equal. lia.
Qed.

Lemma fillForecast_all daily n :
  (n <= length (drop 1 daily))%nat ->
  Forall (fun day => Daily_Weather day <> []) (take n (drop 1 daily)) ->
  fillForecast daily (seq 1 n) (replicate n zeroForecastDay)
  = Ok (forecastOf <$> take n (drop 1 daily)).
Proof.
  intros Hn Hne. by apply (fillForecast_from daily n 0%nat).
Qed.

Lemma forecastLines_returns daily j : forall k result,
  (k + j <= length (drop 1 daily))%nat ->
  Forall (fun day => Daily_Weather day <> []) (take j (drop k (drop 1 daily))) ->
  exists text, forecastLines daily (seq (S k) j) result = Ok text.
Proof.
  induction j as [|j IH]; intros k result Hlen Hne; simpl; [by eauto|].
  destruct (lookup_lt_is_Some_2 (drop 1 daily) k) as [day Hday]; [lia|].
  assert (daily !! S k = Some day) as ->.
  { by rewrite lookup_drop in Hday. }
  rewrite (drop_S _ _ _ Hday) in Hne. simpl in Hne.
  apply Forall_cons in Hne as [Hd Hne].
  rewrite (first_description_hd _ Hd). simpl.
  apply IH; [lia|done].
Qed.

Lemma summarizeForecast_returns (w : World) data :
  summaryReturns w -> exists text, summarizeForecast w data = Ok text.
Proof.
  unfold summarizeForecast. intros [Hkey|Hchat].
  - rewrite decide_True by done. eauto.
  - case_decide; [by eauto|].
    destruct (openai_chat w _) as [err|[|c cs]] eqn:E; simpl; eauto.
    by apply Hchat in E.
Qed.

(** A ZIP code whose processing returns an error is logged and the loop
    goes on with the next one. *)
Lemma processLoop_skips config worlds i zip zips acc log err :
  GetLocationWeather (worlds i) zip config = Err err ->
  processLoop config worlds i (zip :: zips) acc log
  = processLoop config worlds (S i) zips acc (log ++ [(zip, err)]).
Proof. intros E. simpl. by rewrite E. Qed.

(** The loop returns, with every ZIP code either collected or logged,
    provided no iteration panics. *)
Lemma processLoop_returns config worlds zips : forall i acc log,
  (forall j zip msg, GetLocationWeather (worlds j) zip config <> Panic msg) ->
  exists res,
    processLoop config worlds i zips acc log = Ok res
    /\ (length res.1 + length res.2 = length acc + length log + length zips)%nat.
Proof.
  induction zips as [|zip zips IH]; intros i acc log Hnp; simpl.
  - eexists. split; [done|]. simpl. lia.
  - destruct (GetLocationWeather (worlds i) zip config) as [wd|err|msg] eqn:E.
    + destruct (IH (S i) (acc ++ [wd]) log Hnp) as (res & -> & Hlen).
      eexists. split; [done|]. rewrite length_app in Hlen. simpl in Hlen. lia.
    + destruct (IH (S i) acc (log ++ [(zip, err)]) Hnp) as (res & -> & Hlen).
      eexists. split; [done|]. rewrite length_app in Hlen. simpl in Hlen. lia.
    + by apply Hnp in E.
Qed.

(** Whatever the provider, a response without daily entries makes
    GetLocationWeather panic on the slice length [-1]. *)
Lemma empty_daily_panics (w : World) zip config lat lon city weather :
  getCoordinates w zip (APIKey config) = Ok (lat, lon, city) ->
  getWeather w lat lon (APIKey config) = Ok weather ->
  Daily weather = [] ->
  GetLocationWeather w zip config = Panic "makeslice: len out of range".
Proof.
  intros Hc Hw Hd. unfold GetLocationWeather.
  rewrite Hc. simpl. rewrite Hw. simpl. by rewrite Hd.
Qed.

(** A panic in one iteration ends the loop there. *)
Lemma processLoop_panics config worlds i zip zips acc log msg :
  GetLocationWeather (worlds i) zip config = Panic msg ->
  processLoop config worlds i (zip :: zips) acc log = Panic msg.
Proof. intros E. simpl. by rewrite E. Qed.

End DriverFacts.

(** ** The batch driver: the statements *)

(** C9 (what the code does).  A valid configuration and a primary provider
    that answers 200 with a body decoding to no daily entries: the first
    ZIP code's processing panics on the negative slice length, the panic
    is not recovered, and the batch ends without reaching the second ZIP
    code.  An upstream that merely fails is logged and skipped. *)
Theorem empty_daily_body_ends_the_batch :
  ValidateConfig (batch_json "k" ["90210"; "10001"]) = None
  /\ GetLocationWeather owm_empty "90210" (batch_json "k" ["90210"; "10001"])
     = Panic "makeslice: len out of range"
  /\ main_once (batch_json "k" ["90210"; "10001"]) (fun _ => owm_empty)
     = Panic "makeslice: len out of range"
  /\ main_once (batch_json "k" ["90210"; "10001"]) (fun _ => silent)
     = Ok ([], [("90210", ErrWrap "failed to get coordinates" (ErrTransport "geocode"));
                ("10001", ErrWrap "failed to get coordinates" (ErrTransport "geocode"))]).
Proof. repeat apply conj; reflexivity. Qed.

(** C10.  A response with two daily entries, the second without a weather
    description: instead of returning a record whose Forecast is that
    second entry, GetLocationWeather panics on [day.Weather[0]].  The read
    of [weather.Current.Weather[0]] a few lines earlier is guarded by a
    length test; this one is not. *)
Lemma missing_description_panics :
  (exists weather,
      getWeather owm_no_description 34.0901 (-118.4065) "k" = Ok weather
      /\ length (Daily weather) = 2%nat)
  /\ GetLocationWeather owm_no_description "90210" (batch_json "k" ["90210"])
     = Panic "index out of range [0] with length 0".
Proof.
  split; [|reflexivity].
  eexists. split; [vm_compute; reflexivity | reflexivity].
Qed.

(** X26.  For a response with at least one daily entry whose
    entries at positions 1 .. min(len, 7) - 1 each carry a weather
    description (and, for text output, whose current conditions carry one
    and whose summariser hands back a text), GetLocationWeather returns a
    record whose Forecast is those entries in order, the first element of
    the daily sequence left out whatever its date, and whose ForecastDays
    is their number. *)
Theorem forecast_drops_first_daily_entry :
  forall (std : GoStd) (w : World) (zip : string) (config : Config)
         (lat lon : float) (city : string) (weather : WeatherResponse),
    getCoordinates w zip (APIKey config) = Ok (lat, lon, city) ->
    getWeather w lat lon (APIKey config) = Ok weather ->
    Daily weather <> [] ->
    Forall (fun day => Daily_Weather day <> [])
           (take (min (length (Daily weather)) 7 - 1) (drop 1 (Daily weather))) ->
    (OutputFormat config = FormatText ->
       Current_Weather (Current weather) <> [] /\ summaryReturns w) ->
    exists wd,
      GetLocationWeather w zip config = Ok wd
      /\ Forecast wd
         = forecastOf <$> take (min (length (Daily weather)) 7 - 1)
                               (drop 1 (Daily weather))
      /\ length (Forecast wd) = (min (length (Daily weather)) 7 - 1)%nat
      /\ ForecastDays wd = Z.of_nat (length (Forecast wd)).
Proof.
  intros std w zip config lat lon city weather Hc Hw Hd Hne Htext.
  set (n := (min (length (Daily weather)) 7 - 1)%nat) in *.
  assert (0 < length (Daily weather))%nat as Hpos.
  { destruct (Daily weather); [done | simpl; lia]. }
  assert (capDays (Daily weather) - 1 = Z.of_nat n) as Hcap.
  { rewrite capDays_min. unfold n. lia. }
  assert (n <= length (drop 1 (Daily weather)))%nat as Hn.
  { rewrite length_drop. unfold n. lia. }
  unfold GetLocationWeather. rewrite Hc. simpl. rewrite Hw. simpl.
  rewrite Hcap, Nat2Z.id.
  destruct (Z.of_nat n <? 0) eqn:Hneg; [lia|].
  rewrite (fillForecast_all _ _ Hn Hne). simpl.
  assert (length (forecastOf <$> take n (drop 1 (Daily weather))) = n) as Hlen.
  { rewrite length_fmap, length_take. lia. }
  destruct (decide (OutputFormat config = FormatText)) as [Ht|Ht].
  - destruct (Htext Ht) as [Hcur Hsum].
    unfold buildForecastText. rewrite (first_description_hd _ Hcur). simpl.
    rewrite Hcap, Nat2Z.id.
    edestruct (forecastLines_returns (Daily weather) n 0%nat) as [text ->];
      [lia | done |]. simpl.
    destruct (summarizeForecast_returns w text Hsum) as [summary ->]. simpl.
    eexists. split; [reflexivity|]. simpl. rewrite Hlen. by repeat split.
  - simpl. eexists. split; [reflexivity|]. simpl. rewrite Hlen. by repeat split.
Qed.

(** On the fallback path with a clock that reads a date before the first
    forecast period, the first daily entry is the first forecast day, and
    it is the one left out. *)
Lemma forecast_drops_first_future_day :
  exists wd,
    GetLocationWeather nws_up "10001" (batch_json "" ["10001"]) = Ok wd
    /\ (fun e => (Daily_Dt e, Daily_Temp_Min e, Daily_Temp_Max e))
         <$> nwsDaily example_periods (time_Format (now_forecast nws_up))
       = [(1714564800, 55%float, 70%float); (1714651200, 72%float, 72%float)]
    /\ Forecast wd = [ {| Date := 1714651200; TempMin := 72; TempMax := 72;
                          Condition := "Cloudy" |} ].
Proof.
  destruct (forecast_drops_first_daily_entry GoModel.std nws_up "10001"
              (batch_json "" ["10001"]) 40.7501%float (-73.9996)%float "New York"
              {| Current :=
                   {| Current_Temp := 68; Current_FeelsLike := 68;
                      Current_Humidity := 50; Current_WindSpeed := 11.185;
                      Current_Weather := ["Clear"] |};
                 Daily := nwsDaily example_periods "2024-04-30" |})
    as (wd & Hwd & Hf & _).
  - by vm_compute.
  - by vm_compute.
  - by vm_compute.
  - vm_compute. repeat constructor; discriminate.
  - by vm_compute.
  - exists wd. split; [exact Hwd|]. split; [by vm_compute|].
    rewrite Hf. by vm_compute.
Defined.

(* ================================================================== *)
(** * Further properties of the code *)
(* ================================================================== *)

(** ** Validation *)

(** X1.  [validateURL] accepts a URL exactly when it parses, its scheme is
    "https" and its host is some text followed by one of the two
    allow-listed strings.  A URL that does not parse is reported as
    invalid, a scheme other than "https" is reported before the host is
    looked at, and the function never panics. *)
Theorem validateURL_accepts_exactly :
  forall (std : GoStd) (rawURL : string),
    (validateURL rawURL = Ok tt <->
       exists front domain,
         domain ∈ allowedHosts
         /\ url_Parse rawURL = Some {| Scheme := "https"; Host := front +:+ domain |})
    /\ (validateURL rawURL = Err ErrInvalidURL <-> url_Parse rawURL = None)
    /\ (validateURL rawURL = Err ErrNotHTTPS <->
          exists u, url_Parse rawURL = Some u /\ Scheme u <> "https")
    /\ (forall msg, validateURL rawURL <> Panic msg).
Proof.
  intros std rawURL. split; [|split; [|split]].
  - rewrite validateURL_Ok_iff. unfold allowedHosts. split.
    + intros ([s h] & Hp & Hs & Hh). simpl in *. subst s.
      destruct Hh as [(front & ->)%HasSuffix_spec|(front & ->)%HasSuffix_spec].
      * exists front, "openweathermap.org". split; [set_solver|done].
      * exists front, "api.weather.gov". split; [set_solver|done].
    + intros (front & domain & Hd & Hp). eexists. split; [exact Hp|]. simpl.
      split; [done|].
      apply elem_of_cons in Hd as [->|Hd]; [left|right].
      * apply HasSuffix_spec. by exists front.
      * apply list_elem_of_singleton in Hd as ->. apply HasSuffix_spec. by exists front.
  - unfold validateURL. destruct (url_Parse rawURL) as [u|]; [|done].
    split; [|done]. case_bool_decide; simpl; [|done]. by case_match.
  - unfold validateURL. destruct (url_Parse rawURL) as [u|].
    + case_bool_decide as Hs; simpl.
      * split; [by case_match|]. intros (u' & [= <-] & Hn). done.
      * split; [by eauto|done].
    + split; [done|]. by intros (u' & ? & _).
  - intros msg. unfold validateURL. destruct (url_Parse rawURL) as [u|]; [|done].
    case_bool_decide; simpl; [|done]. by case_match.
Qed.

(** X2.  Every URL the key-only variant of [validateURL] accepts is
    accepted by the variant with the fallback, and the only URLs the
    latter adds are HTTPS URLs whose host ends with "api.weather.gov". *)
Theorem validateURL_extends_keyonly :
  forall (std : GoStd) (rawURL : string),
    validateURL rawURL = Ok tt <->
    validateURL_keyonly rawURL = Ok tt
    \/ exists u, url_Parse rawURL = Some u /\ Scheme u = "https"
                 /\ HasSuffix (Host u) "api.weather.gov" = true.
Proof.
  intros std rawURL. rewrite validateURL_Ok_iff. unfold validateURL_keyonly.
  destruct (url_Parse rawURL) as [u|]; simpl.
  - case_bool_decide as Hs; simpl.
    + destruct (HasSuffix (Host u) "openweathermap.org") eqn:E1; simpl.
      * split; [by left|]. intros _. exists u. by auto.
      * split.
        -- intros (u' & [= <-] & _ & [?|?]); [congruence|]. right. by exists u.
        -- intros [?|(u' & [= <-] & _ & ?)]; [done|]. exists u. by auto.
    + split.
      * by intros (u' & [= <-] & ? & _).
      * intros [?|(u' & [= <-] & ? & _)]; done.
  - split.
    + by intros (u' & ? & _).
    + intros [?|(u' & ? & _)]; done.
Qed.

Lemma isValidZip_iff zip :
  isValidZip zip = true <->
  String.length zip = 5%nat
  /\ Forall (fun c => (48 <= N_of_ascii c <= 57)%N) (list_ascii_of_string zip).
Proof.
  unfold isValidZip. rewrite andb_true_iff, bool_decide_eq_true, forallb_forall.
  rewrite Forall_forall. split; intros [Hl Hc]; (split; [done|]); intros c Hin.
  - apply list_elem_of_In, Hc in Hin.
    apply negb_true_iff, orb_false_iff in Hin as [?%N.ltb_ge ?%N.ltb_ge]. by split.
  - apply list_elem_of_In, Hc in Hin.
    destruct Hin as [? ?]. apply negb_true_iff, orb_false_iff. by split; apply N.ltb_ge.
Qed.

(** X3.  [ValidateConfig] accepts exactly the configurations with a
    non-empty API key, at least one ZIP code, every ZIP code made of five
    ASCII digits, one of the four output formats and, for the Kafka
    format, a non-empty broker. *)
Theorem ValidateConfig_accepts_exactly :
  forall config : Config,
    ValidateConfig config = None <->
    APIKey config <> ""
    /\ ZipCodes config <> []
    /\ Forall (fun zip =>
                 String.length zip = 5%nat
                 /\ Forall (fun c => (48 <= N_of_ascii c <= 57)%N)
                           (list_ascii_of_string zip))
              (ZipCodes config)
    /\ OutputFormat config ∈ [FormatJSON; FormatCSV; FormatText; FormatKafka]
    /\ (OutputFormat config = FormatKafka -> KafkaBroker config <> "").
Proof.
  intros config. unfold ValidateConfig.
  destruct (decide (APIKey config = "")) as [Hk|Hk]; [split; [done|tauto]|].
  destruct (decide (length (ZipCodes config) = 0%nat)) as [Hz|Hz].
  { split; [done|]. intros (_ & Hne & _). by destruct (ZipCodes config). }
  assert (ZipCodes config <> []) as Hne by (by destruct (ZipCodes config)).
  destruct (find _ (ZipCodes config)) as [zip|] eqn:Hf.
  { split; [done|]. intros (_ & _ & Hall & _).
    apply find_some in Hf as [Hin Hbad%negb_true_iff].
    apply list_elem_of_In in Hin. eapply Forall_forall in Hall; [|exact Hin].
    apply isValidZip_iff in Hall. congruence. }
  assert (Forall (fun zip => String.length zip = 5%nat
                    /\ Forall (fun c => (48 <= N_of_ascii c <= 57)%N)
                              (list_ascii_of_string zip)) (ZipCodes config)) as Hall.
  { apply Forall_forall. intros zip Hin%list_elem_of_In. apply isValidZip_iff.
    pose proof (find_none _ _ Hf zip Hin) as Hv. by apply negb_false_iff in Hv. }
  case_bool_decide as Hfmt; simpl; [|split; [done|tauto]].
  case_bool_decide as Hkafka; simpl.
  - case_bool_decide as Hb; simpl.
    + split; [done|]. intros (_ & _ & _ & _ & Himp). by apply Himp in Hkafka.
    + split; [|done]. intros _. by repeat split.
  - split; [|done]. intros _. by repeat split.
Qed.

(** ** Flags *)

Lemma strings_Split_nonempty s sep : strings_Split s sep <> [].
Proof.
  destruct s as [|c r]; simpl; [done|].
  case_decide; [done|]. by destruct (strings_Split r sep).
Qed.

Lemma strings_Split_no_sep s sep :
  sep ∉ list_ascii_of_string s -> strings_Split s sep = [s].
Proof.
  induction s as [|c r IH]; simpl; [done|].
  intros Hn. apply not_elem_of_cons in Hn as [Hc Hr].
  rewrite decide_False by done. by rewrite IH.
Qed.

Lemma strings_Split_app s t sep :
  sep ∉ list_ascii_of_string s ->
  strings_Split (s +:+ String sep t) sep = s :: strings_Split t sep.
Proof.
  induction s as [|c r IH]; simpl.
  - intros _. by rewrite decide_True.
  - intros Hn. apply not_elem_of_cons in Hn as [Hc Hr].
    rewrite decide_False by done. by rewrite IH.
Qed.

Lemma valid_zip_no_comma zip :
  isValidZip zip = true -> ","%char ∉ list_ascii_of_string zip.
Proof.
  intros [_ Hc]%isValidZip_iff Hin.
  eapply Forall_forall in Hc; [|exact Hin]. destruct Hc as [Hc _].
  apply Hc. reflexivity.
Qed.

(** X4.  Joining the pieces [strings.Split] returns with the separator
    gives the string back, and splitting a comma-joined non-empty list of
    valid ZIP codes gives the list back: [ParseFlags] turns
    [-zip-codes=z1,...,zn] into exactly [z1; ...; zn], ignoring any
    positional argument. *)
Theorem ParseFlags_zip_codes_round_trip :
  (forall s sep,
      String.concat (String sep EmptyString) (strings_Split s sep) = s)
  /\ (forall (f : Flags) (zips : list string),
        zips <> [] ->
        Forall (fun zip => isValidZip zip = true) zips ->
        flag_zip_codes f = String.concat "," zips ->
        ZipCodes (ParseFlags f) = zips).
Proof.
  split.
  - intros s sep. induction s as [|c r IH]; simpl; [done|].
    pose proof (strings_Split_nonempty r sep) as Hne.
    destruct (decide (c = sep)) as [->|Hc].
    + destruct (strings_Split r sep) as [|y ys] eqn:E; [done|].
      simpl in *. by rewrite IH.
    + destruct (strings_Split r sep) as [|y ys] eqn:E; [done|].
      destruct ys as [|y' ys]; simpl in *; by rewrite <-IH.
  - intros f zips Hne Hvalid Hflag. unfold ParseFlags. simpl.
    assert (flag_zip_codes f <> "") as Hs.
    { rewrite Hflag. destruct zips as [|z zs]; [done|].
      apply Forall_cons in Hvalid as [[Hl _]%isValidZip_iff _].
      destruct z as [|c z]; [done|]. simpl. by destruct zs. }
    rewrite decide_False by done. rewrite Hflag. clear Hflag Hs.
    induction zips as [|z zs IH]; [done|].
    apply Forall_cons in Hvalid as [Hz Hvalid].
    destruct zs as [|z' zs].
    + simpl. by apply strings_Split_no_sep, valid_zip_no_comma.
    + change (String.concat "," (z :: z' :: zs))
        with (z +:+ String "," (String.concat "," (z' :: zs))).
      rewrite strings_Split_app by (by apply valid_zip_no_comma).
      by rewrite IH.
Qed.

Lemma ParseFlags_zip_codes_example :
  ZipCodes (ParseFlags
    {| flag_api_key := "k"; flag_zip_codes := "90210,10001,60601";
       flag_format := "text"; flag_output := ""; flag_metric := false;
       flag_kafka_broker := "localhost:9092"; flag_kafka_topic := "weather-data";
       flag_interval := 0; flag_verbose := false; flag_args := ["33101"] |})
  = ["90210"; "10001"; "60601"].
Proof.
  destruct ParseFlags_zip_codes_round_trip as [_ Hrt].
  apply Hrt; [done| |reflexivity].
  repeat constructor.
Defined.

(** X5.  With 64-bit [int], an [-interval] of 1 to 9223372036 seconds
    becomes that many seconds in nanoseconds; a non-positive value leaves
    the interval at zero; 9223372037 seconds already overflows the
    duration to a negative value, which [main] treats as "run once". *)
Theorem ParseFlags_interval_range :
  forall f : Flags,
    (0 < flag_interval f <= 9223372036 ->
       Interval (ParseFlags f) = flag_interval f * Second
       /\ 0 < Interval (ParseFlags f))
    /\ (flag_interval f <= 0 -> Interval (ParseFlags f) = 0)
    /\ (flag_interval f = 9223372037 -> Interval (ParseFlags f) < 0).
Proof.
  intros f. unfold ParseFlags, wrap64, Second. simpl. repeat split.
  - destruct (0 <? flag_interval f) eqn:E; [|lia].
    rewrite Z.mod_small; lia.
  - destruct (0 <? flag_interval f) eqn:E; [|lia].
    rewrite Z.mod_small; lia.
  - intros Hn. destruct (0 <? flag_interval f) eqn:E; [lia|done].
  - intros ->. by vm_compute.
Qed.

(** X6.  Without [-api-key] and without [OWM_API_KEY] the program stops
    at validation whatever the other flags are: no batch is started, so
    the credential-free path is never taken from [main]. *)
Theorem no_key_no_batch :
  forall (std : GoStd) (f : Flags) (worlds : nat -> World),
    flag_api_key f = "" ->
    main_once (ParseFlags f) worlds
    = Err (ErrWrap "Configuration error"
             (ErrConfig "OpenWeatherMap API key is required (use -api-key flag or OWM_API_KEY env var)")).
Proof.
  intros std f worlds Hk. unfold main_once, ValidateConfig, ParseFlags. simpl.
  by rewrite decide_True.
Qed.

Lemma no_key_no_batch_example :
  main_once (ParseFlags
    {| flag_api_key := ""; flag_zip_codes := "10001";
       flag_format := "json"; flag_output := ""; flag_metric := false;
       flag_kafka_broker := "localhost:9092"; flag_kafka_topic := "weather-data";
       flag_interval := 0; flag_verbose := false; flag_args := [] |})
    (fun _ => nws_up)
  = Err (ErrWrap "Configuration error"
           (ErrConfig "OpenWeatherMap API key is required (use -api-key flag or OWM_API_KEY env var)")).
Proof. apply (no_key_no_batch GoModel.std). reflexivity. Defined.

(** ** The aggregator *)

Section MoreAggregatorFacts.
Context `{GoStd}.

Lemma dayTemps_Forall (P : float -> Prop) l :
  Forall P (dayTemps l) ->
  Forall (fun tp => IsDaytime tp.2 = true -> P (Temperature tp.2)) l.
Proof.
  unfold dayTemps. rewrite Forall_fmap, !Forall_forall.
  intros Hall tp Hin Hd. apply (Hall tp). by apply list_elem_of_filter.
Qed.

Lemma nightTemps_Forall (P : float -> Prop) l :
  Forall P (nightTemps l) ->
  Forall (fun tp => IsDaytime tp.2 = false -> P (Temperature tp.2)) l.
Proof.
  unfold nightTemps. rewrite Forall_fmap, !Forall_forall.
  intros Hall tp Hin Hd. apply (Hall tp). by apply list_elem_of_filter.
Qed.

Lemma traced_widen seed seen b tp :
  traced seed seen b -> traced seed (seen ++ [tp]) (spec_widen b tp).
Proof.
  intros (Hd & (tm & Hm & Hmf & Hmax & Hdesc) & (tq & Hq & Hqf & Hmin)).
  assert (tp ∈ seen ++ [tp]) as Hp by (apply elem_of_app; right; left).
  assert (tm ∈ seen ++ [tp]) as Hm' by (apply elem_of_app; by left).
  assert (tq ∈ seen ++ [tp]) as Hq' by (apply elem_of_app; by left).
  unfold spec_widen. destruct (IsDaytime tp.2) eqn:Hday.
  - destruct (F64.gt _ _); (split; [done|split]); simpl.
    + exists tp. by auto.
    + exists tq. by auto.
    + exists tm. by auto.
    + exists tq. by auto.
  - destruct (F64.lt _ _); (split; [done|split]); simpl.
    + exists tm. by auto.
    + exists tp. by auto.
    + exists tm. by auto.
    + exists tq. by auto.
Qed.

Lemma traced_foldl seed l : forall seen b,
  traced seed seen b -> traced seed (seen ++ l) (foldl spec_widen b l).
Proof.
  induction l as [|tp l IH]; intros seen b Hb; simpl.
  - by rewrite app_nil_r.
  - rewrite (cons_middle tp seen l), (assoc_L (++)).
    by apply IH, traced_widen.
Qed.

End MoreAggregatorFacts.

(** X7.  In the bucket of a date, the maximum is not exceeded by the
    seeding period nor by any later daytime period of that date, and the
    minimum is not undercut by the seeding period nor by any later
    nighttime period.  (A later nighttime period may be warmer than the
    maximum and a later daytime period colder than the minimum.) *)
Theorem bucket_extremes_dominate :
  forall (std : GoStd) (periods : list Period) (d : string) (b : dayBucket),
    groupPeriods periods !! d = Some b ->
    exists seed rest,
      periodsOn d periods = seed :: rest
      /\ F64.gt (Temperature seed.2) (maxTemp b) = false
      /\ F64.lt (Temperature seed.2) (minTemp b) = false
      /\ Forall (fun tp =>
                   if IsDaytime tp.2
                   then F64.gt (Temperature tp.2) (maxTemp b) = false
                   else F64.lt (Temperature tp.2) (minTemp b) = false)
                rest.
Proof.
  intros std periods d b. rewrite groupPeriods_lookup.
  destruct (periodsOn d periods) as [|seed rest]; simpl; [done|].
  intros [= <-]. exists seed, rest. split; [done|].
  rewrite foldl_widen_max, foldl_widen_min. simpl.
  pose proof (run_dominates_all F64.lt F64Facts.lt_irrefl F64Facts.lt_trans
                (dayTemps rest) (Temperature seed.2)) as Hmax.
  pose proof (run_dominates_all (flip F64.lt) F64Facts.lt_irrefl
                (fun a b c Hab Hbc => F64Facts.lt_trans c b a Hbc Hab)
                (nightTemps rest) (Temperature seed.2)) as Hmin.
  apply Forall_cons in Hmax as [Hmax0 Hmax], Hmin as [Hmin0 Hmin].
  split; [exact Hmax0|]. split; [exact Hmin0|].
  apply dayTemps_Forall in Hmax. apply nightTemps_Forall in Hmin.
  rewrite Forall_forall in Hmax, Hmin. apply Forall_forall. intros tp Hin.
  destruct (IsDaytime tp.2) eqn:Hd.
  - by apply Hmax.
  - by apply Hmin.
Qed.

Lemma bucket_extremes_dominate_example :
  exists seed rest,
    periodsOn "2024-05-01" seed_then_ab = seed :: rest
    /\ length rest = 2%nat.
Proof.
  assert (is_Some (groupPeriods seed_then_ab !! "2024-05-01")) as [b Hb].
  { apply groupPeriods_is_Some. vm_compute. left. }
  destruct (bucket_extremes_dominate GoModel.std seed_then_ab "2024-05-01" b Hb)
    as (seed & rest & Hp & _).
  exists seed, rest. split; [exact Hp|].
  assert (length (periodsOn "2024-05-01" seed_then_ab) = 3%nat) as Hl
    by (vm_compute; reflexivity).
  rewrite Hp in Hl. simpl in Hl. by injection Hl.
Defined.

(** X8.  Every field of a bucket is read from a period of its date: the
    date from the seeding period; the maximum and the condition text
    together from one period, the seed or a later daytime period; the
    minimum from the seed or a later nighttime period. *)
Theorem bucket_fields_come_from_periods :
  forall (std : GoStd) (periods : list Period) (d : string) (b : dayBucket),
    groupPeriods periods !! d = Some b ->
    exists seed rest,
      periodsOn d periods = seed :: rest
      /\ traced seed (seed :: rest) b.
Proof.
  intros std periods d b. rewrite groupPeriods_lookup.
  destruct (periodsOn d periods) as [|seed rest]; simpl; [done|].
  intros [= <-]. exists seed, rest. split; [done|].
  apply (traced_foldl seed rest [seed]).
  split; [done|]. split; exists seed; (split; [left|by auto]).
Qed.

Lemma bucket_fields_come_from_periods_example :
  exists seed rest,
    periodsOn "2024-05-01" example_periods = seed :: rest
    /\ time_Unix seed.1 = 1714564800.
Proof.
  assert (is_Some (groupPeriods example_periods !! "2024-05-01")) as [b Hb].
  { apply groupPeriods_is_Some. vm_compute. left. }
  destruct (bucket_fields_come_from_periods GoModel.std example_periods
              "2024-05-01" b Hb) as (seed & rest & Hp & _).
  exists seed, rest. split; [exact Hp|].
  assert (time_Unix <$> (fst <$> head (periodsOn "2024-05-01" example_periods))
          = Some 1714564800) as Hu by (vm_compute; reflexivity).
  rewrite Hp in Hu. simpl in Hu. by injection Hu.
Defined.

(** X9.  A period changes the bucket of its own date only: inserting it
    anywhere in the sequence leaves the bucket of every other date as it
    was. *)
Theorem period_touches_only_its_date :
  forall (std : GoStd) (l1 l2 : list Period) (p : Period) (d : string),
    time_Format <$> time_Parse (StartTime p) <> Some d ->
    groupPeriods (l1 ++ p :: l2) !! d = groupPeriods (l1 ++ l2) !! d.
Proof.
  intros std l1 l2 p d Hp. rewrite !groupPeriods_lookup, !periodsOn_app.
  do 2 f_equal. unfold periodsOn. simpl.
  destruct (time_Parse (StartTime p)) as [t|]; [|done].
  rewrite decide_False; [done|]. intros Hd. apply Hp. simpl. by rewrite Hd.
Qed.

Lemma period_touches_only_its_date_example :
  groupPeriods ([mkPeriod "2024-05-01T08:00:00-04:00" true 70 "Sunny"]
                ++ mkPeriod "2024-05-02T08:00:00-04:00" true 72 "Cloudy"
                   :: [mkPeriod "2024-05-01T20:00:00-04:00" false 55 "Clear"])
    !! "2024-05-01"
  = groupPeriods ([mkPeriod "2024-05-01T08:00:00-04:00" true 70 "Sunny"]
                  ++ [mkPeriod "2024-05-01T20:00:00-04:00" false 55 "Clear"])
      !! "2024-05-01".
Proof.
  apply (period_touches_only_its_date GoModel.std). vm_compute. discriminate.
Defined.

(** X10.  The daily sequence has an entry for a date exactly when some
    period with a parsable timestamp starts on it (no day is invented, none
    is lost); the entry's [Dt] is the start of the first such period and it
    carries exactly one description; the sequence is empty exactly when no
    period parses. *)
Theorem daily_entries_cover_the_dates :
  forall (std : GoStd) (periods : list Period) (today : string),
    (forall d, d ∈ (nwsDailyKeyed (groupPeriods periods) today).*1
               <-> d ∈ dateKeys periods)
    /\ Forall (fun de =>
                 exists seed, head (periodsOn de.1 periods) = Some seed
                              /\ Daily_Dt de.2 = time_Unix seed.1
                              /\ length (Daily_Weather de.2) = 1%nat)
              (nwsDailyKeyed (groupPeriods periods) today)
    /\ (nwsDaily periods today = []
        <-> Forall (fun p => time_Parse (StartTime p) = None) periods).
Proof.
  intros std periods today.
  assert (forall d, d ∈ (nwsDailyKeyed (groupPeriods periods) today).*1
                    <-> d ∈ dateKeys periods) as Hkeys.
  { intros d. unfold nwsDailyKeyed. rewrite dailyFrom_keys.
    rewrite (elem_of_Permutation_proper d _ _ (outputKeys_perm _ today)).
    rewrite <-groupPeriods_is_Some, list_elem_of_fmap. split.
    - intros ([d' b] & -> & Hin%elem_of_map_to_list). by exists b.
    - intros [b Hb]. exists (d, b). by rewrite elem_of_map_to_list. }
  split; [exact Hkeys|]. split.
  - apply Forall_forall. intros [d e] Hin.
    assert (d ∈ dateKeys periods) as Hd.
    { apply Hkeys, list_elem_of_fmap. by exists (d, e). }
    unfold nwsDailyKeyed in Hin. rewrite dailyFrom_keyed in Hin.
    apply list_elem_of_fmap in Hin as (d' & [= <- ->] & _).
    apply groupPeriods_is_Some in Hd as [b Hb]. rewrite Hb. simpl.
    rewrite groupPeriods_lookup in Hb.
    destruct (periodsOn d periods) as [|seed rest]; simpl in *; [done|].
    injection Hb as <-. exists seed. by rewrite foldl_widen_date.
  - rewrite <-length_zero_iff_nil, nwsDaily_length, map_size_empty_iff. split.
    + intros Hm. apply Forall_forall. intros p Hp.
      destruct (time_Parse (StartTime p)) as [t|] eqn:Ht; [|done]. exfalso.
      assert (time_Format t ∈ dateKeys periods) as Hin.
      { apply list_elem_of_omap. exists p. by rewrite Ht. }
      apply groupPeriods_is_Some in Hin as [b Hb]. by rewrite Hm in Hb.
    + intros Hall. apply map_eq. intros d. rewrite lookup_empty.
      apply eq_None_not_Some. intros Hs%groupPeriods_is_Some.
      apply list_elem_of_omap in Hs as (p & Hp & Hd).
      eapply Forall_forall in Hall; [|exact Hp]. by rewrite Hall in Hd.
Qed.

(** X11.  Go ranges over [dayMap] in an unspecified order; whatever the
    order in which the keys are collected, the daily sequence is the
    same. *)
Theorem daily_independent_of_map_order :
  forall (std : GoStd) (m : gmap string dayBucket) (today : string)
         (ks : list string),
    ks ≡ₚ (map_to_list m).*1 ->
    dailyFrom ks m today = nwsDailyKeyed m today.
Proof. intros std m today ks Hp. by apply dailyFrom_order. Qed.

Lemma daily_independent_of_map_order_example :
  (dailyFrom ["2024-05-02"; "2024-05-01"] (groupPeriods example_periods) "2024-05-01").*2
  = nwsDaily example_periods "2024-05-01".
Proof.
  unfold nwsDaily.
  apply (f_equal (fun l : list (string * DailyEntry) => l.*2)).
  apply (daily_independent_of_map_order GoModel.std).
  vm_compute. apply perm_swap.
Defined.

(** ** The fallback chain *)

Section MoreChainFacts.
Context `{GoStd}.

Lemma readJSON_Err {A} (r : http_result A) what api e :
  readJSON r what api = Err e ->
  e = ErrTransport what \/ (exists s, e = ErrStatus api s) \/ e = ErrDecode what.
Proof.
  unfold readJSON. destruct r as [|status [body|]]; simpl.
  - intros [= <-]. by left.
  - destruct (status =? 200); simpl; [done|]. intros [= <-]. right. left. by eauto.
  - destruct (status =? 200); simpl; intros [= <-]; [by right; right|].
    right. left. by eauto.
Qed.

Lemma validateURL_no_panic rawURL msg : validateURL rawURL <> Panic msg.
Proof.
  unfold validateURL. destruct (url_Parse _); [|done].
  case_bool_decide; simpl; [|done]. by case_match.
Qed.

Lemma wrapURL_no_panic rawURL msg : wrapURL (validateURL rawURL) <> Panic msg.
Proof.
  pose proof (validateURL_no_panic rawURL msg).
  by destruct (validateURL rawURL).
Qed.

Lemma wrapURL_Err rawURL e :
  wrapURL (validateURL rawURL) = Err e ->
  exists e', e = ErrWrap "URL validation failed" e'.
Proof. destruct (validateURL rawURL); simpl; intros [= <-]. by eauto. Qed.

Lemma NewRequest_no_panic url what msg : NewRequest url what <> Panic msg.
Proof. unfold NewRequest. by destruct (url_Parse url). Qed.

Lemma NewRequest_Err url what e : NewRequest url what = Err e -> e = ErrTransport what.
Proof. unfold NewRequest. destruct (url_Parse url); by intros [= <-]. Qed.

Lemma getCoordinates_no_panic (w : World) zip apiKey msg :
  getCoordinates w zip apiKey <> Panic msg.
Proof.
  unfold getCoordinates, getNWSCoordinates. case_decide.
  - by repeat case_match.
  - destruct (wrapURL (validateURL _)) as [[]| |] eqn:Ev; simpl; try done.
    + destruct (readJSON _ _ _) as [geo| |] eqn:Er; simpl; try done.
      by apply readJSON_no_panic in Er.
    + by apply wrapURL_no_panic in Ev.
Qed.

Lemma getNWSWeather_no_panic (w : World) lat lon msg :
  getNWSWeather w lat lon <> Panic msg.
Proof.
  unfold getNWSWeather.
  destruct (wrapURL (validateURL _)) as [[]| |] eqn:E1; simpl; try done;
    [|by apply wrapURL_no_panic in E1].
  destruct (readJSON (nws_points w _) _ _) as [pd| |] eqn:E2; simpl; try done;
    [|by apply readJSON_no_panic in E2].
  destruct (NewRequest (Forecast_URL pd) _) as [[]| |] eqn:E3; simpl; try done;
    [|by apply NewRequest_no_panic in E3].
  destruct (readJSON (nws_forecast w _) _ _) as [fd| |] eqn:E4; simpl; try done;
    [|by apply readJSON_no_panic in E4].
  destruct (NewRequest (ObservationStations pd) _) as [[]| |] eqn:E5; simpl; try done;
    [|by apply NewRequest_no_panic in E5].
  destruct (readJSON (nws_stations w _) _ _) as [sd| |] eqn:E6; simpl; try done;
    [|by apply readJSON_no_panic in E6].
  destruct (Features sd) as [|st rest]; [done|].
  destruct (NewRequest (observationURL st) _) as [[]| |] eqn:E8; simpl; try done;
    [|by apply NewRequest_no_panic in E8].
  destruct (readJSON (nws_observation w _) _ _) as [od| |] eqn:E9; simpl; try done.
  by apply readJSON_no_panic in E9.
Qed.

Lemma getWeather_no_panic (w : World) lat lon apiKey msg :
  getWeather w lat lon apiKey <> Panic msg.
Proof.
  unfold getWeather. case_decide; [apply getNWSWeather_no_panic|].
  destruct (wrapURL (validateURL _)) as [[]| |] eqn:Ev; simpl; try done.
  - apply readJSON_no_panic.
  - by apply wrapURL_no_panic in Ev.
Qed.

End MoreChainFacts.

(** X12.  Only the points URL is validated.  The forecast URL named by the
    points body is requested even when [validateURL] would refuse it, and
    the daily sequence is then built from whatever that URL answered. *)
Theorem follow_up_urls_are_not_validated :
  forall (std : GoStd) (w : World) (lat lon : float)
         pointsData forecastData stationsData stationID rest obsData,
    validateURL (pointsURL lat lon) = Ok tt ->
    nws_points w (pointsURL lat lon) = Response 200 (Some pointsData) ->
    validateURL (Forecast_URL pointsData) <> Ok tt ->
    is_Some (url_Parse (Forecast_URL pointsData)) ->
    nws_forecast w (Forecast_URL pointsData) = Response 200 (Some forecastData) ->
    is_Some (url_Parse (ObservationStations pointsData)) ->
    nws_stations w (ObservationStations pointsData) = Response 200 (Some stationsData) ->
    Features stationsData = stationID :: rest ->
    is_Some (url_Parse (observationURL stationID)) ->
    nws_observation w (observationURL stationID) = Response 200 (Some obsData) ->
    exists weather,
      getNWSWeather w lat lon = Ok weather
      /\ Daily weather
         = nwsDaily (Periods forecastData) (time_Format (now_forecast w)).
Proof.
  intros std w lat lon pd fd sd st rest od E1 E2 _ E3 E4 E5 E6 E7 E8 E9.
  eexists. split.
  - apply getNWSWeather_Ok_iff. exists pd, fd, sd, st, rest, od.
    repeat (split; [eassumption|]). reflexivity.
  - reflexivity.
Qed.

Lemma follow_up_urls_are_not_validated_example :
  validateURL "http://forecast.example.net/f" = Err ErrNotHTTPS
  /\ exists weather,
       getNWSWeather nws_redirected 40.7128 (-74.0060) = Ok weather
       /\ length (Daily weather) = 2%nat.
Proof.
  split; [reflexivity|].
  destruct (follow_up_urls_are_not_validated GoModel.std nws_redirected
              40.7128%float (-74.0060)%float
              {| Forecast_URL := "http://forecast.example.net/f";
                 ForecastHourly := "";
                 ObservationStations := "https://api.weather.gov/gridpoints/OKX/33,35/stations";
                 City := "New York" |}
              {| Periods := example_periods |} {| Features := ["KNYC"] |} "KNYC" []
              {| Obs_Temperature := 20; Obs_WindSpeed := 5;
                 Obs_RelativeHumidity := 50; Obs_HeatIndex := 0;
                 TextDescription := "Clear" |})
    as (weather & Hw & Hd);
    [try reflexivity; try (vm_compute; by eauto); try (vm_compute; discriminate) .. |].
  exists weather. split; [exact Hw|]. rewrite Hd. reflexivity.
Defined.

(** X13.  The fallback fetch reports "no observation stations found"
    exactly when the points URL is valid, the points, forecast and
    station-list calls all answer 200 with decodable bodies at parsable
    URLs, and the station list is empty; the observation endpoint plays no
    part.  The forecast is fetched first and then thrown away. *)
Theorem no_stations_exactly :
  forall (std : GoStd) (w : World) (lat lon : float),
    getNWSWeather w lat lon = Err ErrNoStations <->
    exists pointsData forecastData stationsData,
      validateURL (pointsURL lat lon) = Ok tt
      /\ nws_points w (pointsURL lat lon) = Response 200 (Some pointsData)
      /\ is_Some (url_Parse (Forecast_URL pointsData))
      /\ nws_forecast w (Forecast_URL pointsData) = Response 200 (Some forecastData)
      /\ is_Some (url_Parse (ObservationStations pointsData))
      /\ nws_stations w (ObservationStations pointsData) = Response 200 (Some stationsData)
      /\ Features stationsData = [].
Proof.
  intros std w lat lon. unfold getNWSWeather. split.
  - destruct (wrapURL (validateURL (pointsURL lat lon))) as [[]|e|] eqn:E1; simpl; try done;
      [|intros [= ->]; by destruct (wrapURL_Err _ _ E1)].
    apply (proj1 (wrapURL_Ok _ _)) in E1.
    destruct (readJSON (nws_points w _) _ _) as [pd|e|] eqn:E2; simpl; try done;
      [|intros [= ->]; by destruct (readJSON_Err _ _ _ _ E2) as [?|[[? ?]|?]]].
    apply readJSON_Ok in E2.
    destruct (NewRequest (Forecast_URL pd) _) as [[]|e|] eqn:E3; simpl; try done;
      [|intros [= ->]; by apply NewRequest_Err in E3].
    apply NewRequest_Ok in E3.
    destruct (readJSON (nws_forecast w _) _ _) as [fd|e|] eqn:E4; simpl; try done;
      [|intros [= ->]; by destruct (readJSON_Err _ _ _ _ E4) as [?|[[? ?]|?]]].
    apply readJSON_Ok in E4.
    destruct (NewRequest (ObservationStations pd) _) as [[]|e|] eqn:E5; simpl; try done;
      [|intros [= ->]; by apply NewRequest_Err in E5].
    apply NewRequest_Ok in E5.
    destruct (readJSON (nws_stations w _) _ _) as [sd|e|] eqn:E6; simpl; try done;
      [|intros [= ->]; by destruct (readJSON_Err _ _ _ _ E6) as [?|[[? ?]|?]]].
    apply readJSON_Ok in E6.
    destruct (Features sd) as [|st rest] eqn:E7.
    + intros _. by exists pd, fd, sd.
    + destruct (NewRequest (observationURL st) _) as [[]|e|] eqn:E8; simpl; try done;
        [|intros [= ->]; by apply NewRequest_Err in E8].
      destruct (readJSON (nws_observation w _) _ _) as [od|e|] eqn:E9; simpl; try done.
      intros [= ->]. by destruct (readJSON_Err _ _ _ _ E9) as [?|[[? ?]|?]].
  - intros (pd & fd & sd & E1 & E2 & E3 & E4 & E5 & E6 & E7).
    rewrite E1. simpl. rewrite E2. simpl.
    apply (proj2 (NewRequest_Ok _ "forecast request")) in E3. rewrite E3. simpl. rewrite E4. simpl.
    apply (proj2 (NewRequest_Ok _ "stations request")) in E5. rewrite E5. simpl. rewrite E6. simpl.
    by rewrite E7.
Qed.

(** ** One location: GetLocationWeather and the text it summarises *)

Section MoreDriverFacts.
Context `{GoStd}.

Lemma capDays_pred_nat daily :
  Z.to_nat (capDays daily - 1) = (min (length daily) 7 - 1)%nat.
Proof. rewrite capDays_min. lia. Qed.

Lemma capDays_neg daily : (capDays daily - 1 <? 0) = true <-> daily = [].
Proof.
  rewrite capDays_min, Z.ltb_lt. destruct daily; simpl; [by split; [|lia]|].
  split; [lia|done].
Qed.

Lemma capDays_pred_le daily :
  (Z.to_nat (capDays daily - 1) <= length (drop 1 daily))%nat.
Proof. rewrite capDays_pred_nat, length_drop. lia. Qed.

Lemma take_capDays daily :
  take (Z.to_nat (capDays daily - 1)) (drop 1 daily) = take 6 (drop 1 daily).
Proof.
  rewrite capDays_pred_nat. destruct (decide (length daily <= 7)%nat).
  - rewrite !take_ge; [done|rewrite length_drop; lia..].
  - f_equal. lia.
Qed.

Lemma descriptions_dec (l : list DailyEntry) :
  Forall (fun day => Daily_Weather day <> []) l
  \/ Exists (fun day => Daily_Weather day = []) l.
Proof.
  induction l as [|d l [IH|IH]]; [by left| |by right; right].
  destruct (Daily_Weather d) eqn:E; [right; by left|].
  left. constructor; [by rewrite E|done].
Qed.

Lemma descriptions_excl (l : list DailyEntry) :
  Forall (fun day => Daily_Weather day <> []) l ->
  Exists (fun day => Daily_Weather day = []) l -> False.
Proof.
  rewrite Forall_forall, Exists_exists. intros Hf (d & Hd & He). by apply (Hf d).
Qed.

Lemma fillForecast_length daily idx : forall forecast forecast',
  fillForecast daily idx forecast = Ok forecast' -> length forecast' = length forecast.
Proof.
  induction idx as [|i idx IH]; simpl; intros f f'; [by intros [= ->]|].
  destruct (daily !! i); [|done].
  destruct (first_description _); simpl; try done.
  intros E. apply IH in E. by rewrite length_insert in E.
Qed.

Lemma fillForecast_no_Err daily idx : forall forecast e,
  fillForecast daily idx forecast <> Err e.
Proof.
  induction idx as [|i idx IH]; simpl; intros f e; [done|].
  destruct (daily !! i); [|done].
  destruct (first_description _) eqn:E; simpl; try done.
  by destruct (Daily_Weather _).
Qed.

Lemma forecastLines_no_Err daily idx : forall result e,
  forecastLines daily idx result <> Err e.
Proof.
  induction idx as [|i idx IH]; simpl; intros f e; [done|].
  destruct (daily !! i); [|done].
  destruct (first_description _) eqn:E; simpl; try done.
  by destruct (Daily_Weather _).
Qed.

(** The index loop stops with a panic at the first consumed entry that has
    no description, whatever was written before. *)
Lemma fillForecast_stops daily j : forall k forecast,
  (k + j <= length (drop 1 daily))%nat ->
  Exists (fun day => Daily_Weather day = []) (take j (drop k (drop 1 daily))) ->
  exists msg, fillForecast daily (seq (S k) j) forecast = Panic msg.
Proof.
  induction j as [|j IH]; intros k f Hlen Hex; simpl.
  - by apply Exists_nil in Hex.
  - destruct (lookup_lt_is_Some_2 (drop 1 daily) k) as [day Hday]; [lia|].
    assert (daily !! S k = Some day) as ->.
    { by rewrite lookup_drop in Hday. }
    rewrite (drop_S _ _ _ Hday) in Hex. simpl in Hex.
    destruct (Daily_Weather day) as [|d ds] eqn:Ed; simpl; [by eauto|].
    apply Exists_cons in Hex as [Hd|Hex]; [by rewrite Ed in Hd|].
    apply IH; [lia|done].
Qed.

Lemma forecastLines_stops daily j : forall k result,
  (k + j <= length (drop 1 daily))%nat ->
  Exists (fun day => Daily_Weather day = []) (take j (drop k (drop 1 daily))) ->
  exists msg, forecastLines daily (seq (S k) j) result = Panic msg.
Proof.
  induction j as [|j IH]; intros k f Hlen Hex; simpl.
  - by apply Exists_nil in Hex.
  - destruct (lookup_lt_is_Some_2 (drop 1 daily) k) as [day Hday]; [lia|].
    assert (daily !! S k = Some day) as ->.
    { by rewrite lookup_drop in Hday. }
    rewrite (drop_S _ _ _ Hday) in Hex. simpl in Hex.
    destruct (Daily_Weather day) as [|d ds] eqn:Ed; simpl; [by eauto|].
    apply Exists_cons in Hex as [Hd|Hex]; [by rewrite Ed in Hd|].
    apply IH; [lia|done].
Qed.

(** The forecast slots of GetLocationWeather: filled from the six entries
    after the first when each has a description, a panic otherwise. *)
Lemma fillForecast_capDays daily :
  Forall (fun day => Daily_Weather day <> []) (take 6 (drop 1 daily)) ->
  fillForecast daily (seq 1 (Z.to_nat (capDays daily - 1)))
    (replicate (Z.to_nat (capDays daily - 1)) zeroForecastDay)
  = Ok (forecastOf <$> take 6 (drop 1 daily)).
Proof.
  intros Hf. rewrite <-take_capDays in Hf |- *.
  apply fillForecast_all; [apply capDays_pred_le|done].
Qed.

Lemma fillForecast_capDays_stops daily forecast :
  Exists (fun day => Daily_Weather day = []) (take 6 (drop 1 daily)) ->
  exists msg,
    fillForecast daily (seq 1 (Z.to_nat (capDays daily - 1))) forecast = Panic msg.
Proof.
  intros Hex. rewrite <-take_capDays in Hex.
  apply (fillForecast_stops daily _ 0%nat); [apply capDays_pred_le|done].
Qed.

Lemma buildForecastText_returns city zip (w : WeatherResponse) :
  Current_Weather (Current w) <> [] ->
  Forall (fun day => Daily_Weather day <> []) (take 6 (drop 1 (Daily w))) ->
  exists text, buildForecastText city zip w = Ok text.
Proof.
  intros Hc Hf. unfold buildForecastText.
  rewrite (first_description_hd _ Hc). simpl.
  rewrite <-take_capDays in Hf.
  apply (forecastLines_returns (Daily w) _ 0%nat); [apply capDays_pred_le|done].
Qed.

Lemma buildForecastText_stops city zip (w : WeatherResponse) :
  Current_Weather (Current w) = []
  \/ Exists (fun day => Daily_Weather day = []) (take 6 (drop 1 (Daily w))) ->
  exists msg, buildForecastText city zip w = Panic msg.
Proof.
  unfold buildForecastText. intros [Hc|Hex].
  - rewrite Hc. simpl. by eauto.
  - destruct (Current_Weather (Current w)); simpl; [by eauto|].
    rewrite <-take_capDays in Hex.
    apply (forecastLines_stops (Daily w) _ 0%nat); [apply capDays_pred_le|done].
Qed.

Lemma buildForecastText_no_Err city zip (w : WeatherResponse) e :
  buildForecastText city zip w <> Err e.
Proof.
  unfold buildForecastText.
  destruct (Current_Weather (Current w)); simpl; [done|].
  apply forecastLines_no_Err.
Qed.

Lemma summarizeForecast_no_Err (w : World) data e : summarizeForecast w data <> Err e.
Proof.
  unfold summarizeForecast. case_decide; [done|].
  by destruct (openai_chat w _) as [err|[|c cs]].
Qed.

Lemma summarizeForecast_Panic_iff (w : World) data :
  (exists msg, summarizeForecast w data = Panic msg) <->
  OPENAI_API_KEY w <> "" /\ openai_chat w (summaryPrompt data) = inr [].
Proof.
  unfold summarizeForecast, summaryPrompt. case_decide as Hk.
  - split; [by intros [? ?]|by intros [? _]].
  - destruct (openai_chat w _) as [err|[|c cs]]; simpl.
    + split; [by intros [? ?]|by intros [_ ?]].
    + split; [done|by eauto].
    + split; [by intros [? ?]|by intros [_ ?]].
Qed.

Lemma wrapErr_Ok {A} msg (m : outcome A) a : wrapErr msg m = Ok a <-> m = Ok a.
Proof. by destruct m. Qed.

End MoreDriverFacts.

(** X14.  The -metric flag changes nothing but the record's own IsMetric
    field: the requests (always "units=imperial"), the numbers, the
    forecast, the summary and every failure are the same with the flag on
    or off. *)
Theorem metric_flag_only_relabels :
  forall (std : GoStd) (w : World) (zip : string) (config : Config) (b : bool),
    GetLocationWeather w zip (setIsMetric b config)
    = outcome_map (withIsMetric b) (GetLocationWeather w zip config).
Proof.
  intros std w zip config b. unfold GetLocationWeather. simpl.
  destruct (wrapErr _ (getCoordinates w zip (APIKey config)))
    as [[[lat lon] city]| |]; simpl; try done.
  destruct (wrapErr _ (getWeather w lat lon (APIKey config)))
    as [weather| |]; simpl; try done.
  destruct (capDays (Daily weather) - 1 <? 0); [done|].
  destruct (fillForecast _ _ _) as [forecast| |]; simpl; try done.
  destruct (decide (OutputFormat config = FormatText)); simpl; [|done].
  destruct (buildForecastText city zip weather) as [text| |]; simpl; try done.
  by destruct (summarizeForecast w text).
Qed.

(** X15.  Every record GetLocationWeather returns carries the ZIP code it
    was asked for and the clock reading, has between 0 and 6 forecast
    days with exactly that many forecast slots, leaves its own temp_min
    and temp_max at zero, and has an empty summary unless the output
    format is text. *)
Theorem weather_record_shape :
  forall (std : GoStd) (w : World) (zip : string) (config : Config)
         (wd : WeatherData),
    GetLocationWeather w zip config = Ok wd ->
    LocationID wd = zip
    /\ Timestamp wd = now_stamp w
    /\ WD_TempMin wd = 0%float /\ WD_TempMax wd = 0%float
    /\ 0 <= ForecastDays wd <= 6
    /\ Z.of_nat (length (Forecast wd)) = ForecastDays wd
    /\ WD_IsMetric wd = IsMetric config
    /\ (OutputFormat config <> FormatText -> Summary wd = "").
Proof.
  intros std w zip config wd. unfold GetLocationWeather.
  destruct (wrapErr _ (getCoordinates w zip (APIKey config)))
    as [[[lat lon] city]| |]; simpl; try done.
  destruct (wrapErr _ (getWeather w lat lon (APIKey config)))
    as [weather| |]; simpl; try done.
  destruct (capDays (Daily weather) - 1 <? 0) eqn:Hneg; [done|].
  apply Z.ltb_ge in Hneg.
  destruct (fillForecast _ _ _) as [forecast| |] eqn:Hfill; simpl; try done.
  apply fillForecast_length in Hfill. rewrite length_replicate in Hfill.
  assert (capDays (Daily weather) <= 7) as Hcap by (rewrite capDays_min; lia).
  destruct (decide (OutputFormat config = FormatText)) as [Ht|Ht]; simpl.
  - destruct (buildForecastText city zip weather) as [text| |]; simpl; try done.
    destruct (summarizeForecast w text); simpl; try done.
    intros [= <-]. simpl. repeat split; try done; lia.
  - intros [= <-]. simpl. repeat split; try done; lia.
Qed.

Lemma weather_record_shape_example :
  exists wd,
    GetLocationWeather owm_up "90210" (batch_json "k" ["90210"]) = Ok wd
    /\ LocationID wd = "90210"
    /\ Timestamp wd = now_stamp owm_up
    /\ WD_TempMin wd = 0%float /\ WD_TempMax wd = 0%float
    /\ 0 <= ForecastDays wd <= 6
    /\ Z.of_nat (length (Forecast wd)) = ForecastDays wd
    /\ WD_IsMetric wd = false
    /\ (FormatJSON <> FormatText -> Summary wd = "").
Proof.
  assert (exists wd, GetLocationWeather owm_up "90210" (batch_json "k" ["90210"]) = Ok wd)
    as [wd Hwd] by (eexists; reflexivity).
  exists wd. split; [exact Hwd|].
  exact (weather_record_shape GoModel.std owm_up "90210" (batch_json "k" ["90210"]) wd Hwd).
Defined.

(** X16.  GetLocationWeather panics exactly when both fetches succeed and
    then: the response has no daily entry (slice length -1), or one of the
    six entries after the first has no description, or, for text output,
    the current conditions have no description or the summariser hands
    back a completion without choices.  A failed fetch never panics. *)
Theorem GetLocationWeather_panics_exactly :
  forall (std : GoStd) (w : World) (zip : string) (config : Config),
    (exists msg, GetLocationWeather w zip config = Panic msg) <->
    exists lat lon city weather,
      getCoordinates w zip (APIKey config) = Ok (lat, lon, city)
      /\ getWeather w lat lon (APIKey config) = Ok weather
      /\ (Daily weather = []
          \/ Exists (fun day => Daily_Weather day = []) (take 6 (drop 1 (Daily weather)))
          \/ (OutputFormat config = FormatText
              /\ (Current_Weather (Current weather) = []
                  \/ (OPENAI_API_KEY w <> ""
                      /\ exists text,
                           buildForecastText city zip weather = Ok text
                           /\ openai_chat w (summaryPrompt text) = inr [])))).
Proof.
  intros std w zip config. unfold GetLocationWeather. split.
  - intros [msg Hp].
    destruct (getCoordinates w zip (APIKey config)) as [[[lat lon] city]| |] eqn:Hc;
      simpl in Hp; try done; [|by apply getCoordinates_no_panic in Hc].
    destruct (getWeather w lat lon (APIKey config)) as [weather| |] eqn:Hw;
      simpl in Hp; try done; [|by apply getWeather_no_panic in Hw].
    exists lat, lon, city, weather. split; [done|]. split; [done|].
    destruct (capDays (Daily weather) - 1 <? 0) eqn:Hneg;
      [left; by apply capDays_neg|].
    right.
    destruct (descriptions_dec (take 6 (drop 1 (Daily weather)))) as [Hf|Hex];
      [|by left].
    right. rewrite (fillForecast_capDays _ Hf) in Hp. simpl in Hp.
    destruct (decide (OutputFormat config = FormatText)) as [Ht|Ht]; [|done].
    split; [done|].
    destruct (Current_Weather (Current weather)) as [|d ds] eqn:Hcur; [by left|].
    right.
    destruct (buildForecastText_returns city zip weather) as [text Htext];
      [by rewrite Hcur|done|].
    rewrite Htext in Hp. simpl in Hp.
    destruct (summarizeForecast w text) as [summary| |] eqn:Hs; simpl in Hp; try done.
    destruct (proj1 (summarizeForecast_Panic_iff w text)) as [Hk Hchat]; [by eauto|].
    by eauto.
  - intros (lat & lon & city & weather & Hc & Hw & Hcase).
    rewrite Hc. simpl. rewrite Hw. simpl.
    destruct (capDays (Daily weather) - 1 <? 0) eqn:Hneg; [by eauto|].
    assert (Daily weather <> []) as Hd.
    { intros Hd. apply capDays_neg in Hd. congruence. }
    destruct (descriptions_dec (take 6 (drop 1 (Daily weather)))) as [Hf|Hex].
    + rewrite (fillForecast_capDays _ Hf). simpl.
      destruct Hcase as [?|[Hex|(Ht & Hcase)]];
        [done|by destruct (descriptions_excl _ Hf Hex)|].
      rewrite decide_True by done.
      destruct Hcase as [Hcur|(Hk & text & Htext & Hchat)].
      * destruct (buildForecastText_stops city zip weather) as [msg ->]; [by left|].
        simpl. by eauto.
      * rewrite Htext. simpl.
        destruct (proj2 (summarizeForecast_Panic_iff w text)) as [msg ->]; [done|].
        simpl. by eauto.
    + destruct (fillForecast_capDays_stops (Daily weather)
                  (replicate (Z.to_nat (capDays (Daily weather) - 1)) zeroForecastDay) Hex)
        as [msg ->].
      simpl. by eauto.
Qed.

(** X17.  The errors GetLocationWeather returns are exactly the errors of
    its two fetches, wrapped with the name of the step; nothing after the
    fetches returns an error. *)
Theorem GetLocationWeather_errors_exactly :
  forall (std : GoStd) (w : World) (zip : string) (config : Config) (e : error),
    GetLocationWeather w zip config = Err e <->
    (exists e', getCoordinates w zip (APIKey config) = Err e'
                /\ e = ErrWrap "failed to get coordinates" e')
    \/ (exists lat lon city e',
          getCoordinates w zip (APIKey config) = Ok (lat, lon, city)
          /\ getWeather w lat lon (APIKey config) = Err e'
          /\ e = ErrWrap "failed to get weather" e').
Proof.
  intros std w zip config e. unfold GetLocationWeather. split.
  - destruct (getCoordinates w zip (APIKey config)) as [[[lat lon] city]|e1|] eqn:Hc;
      simpl; try done; [|intros [= <-]; left; by eauto].
    destruct (getWeather w lat lon (APIKey config)) as [weather|e2|] eqn:Hw;
      simpl; try done; [|intros [= <-]; right; by eauto 10].
    destruct (capDays (Daily weather) - 1 <? 0); [done|].
    destruct (fillForecast _ _ _) as [forecast|e3|] eqn:Hfill; simpl; try done;
      [|by apply fillForecast_no_Err in Hfill].
    destruct (decide (OutputFormat config = FormatText)); simpl; [|done].
    destruct (buildForecastText city zip weather) as [text|e4|] eqn:Ht; simpl; try done;
      [|by apply buildForecastText_no_Err in Ht].
    destruct (summarizeForecast w text) as [summary|e5|] eqn:Hs; simpl; try done.
    by apply summarizeForecast_no_Err in Hs.
  - intros [(e' & Hc & ->)|(lat & lon & city & e' & Hc & Hw & ->)];
      rewrite Hc; simpl; [done|].
    by rewrite Hw.
Qed.

(** X18.  summarizeForecast never returns an error.  Without an OpenAI key
    it answers a fixed sentence and calls nothing; with one, a client
    error is turned into the text "OpenAI API error: ...", the first
    choice of a completion is returned as it is, and a completion without
    choices is the only way to panic. *)
Theorem summarizeForecast_outcomes :
  forall (std : GoStd) (w : World) (data : string),
    (forall e, summarizeForecast w data <> Err e)
    /\ (OPENAI_API_KEY w = "" ->
        summarizeForecast w data = Ok "Missing OPENAI_API_KEY environment variable")
    /\ (forall err, OPENAI_API_KEY w <> "" ->
          openai_chat w (summaryPrompt data) = inl err ->
          summarizeForecast w data = Ok ("OpenAI API error: " +:+ err))
    /\ (forall c cs, OPENAI_API_KEY w <> "" ->
          openai_chat w (summaryPrompt data) = inr (c :: cs) ->
          summarizeForecast w data = Ok c)
    /\ ((exists msg, summarizeForecast w data = Panic msg) <->
        OPENAI_API_KEY w <> "" /\ openai_chat w (summaryPrompt data) = inr []).
Proof.
  intros std w data. split; [intros e; apply summarizeForecast_no_Err|].
  split; [|split; [|split; [|apply summarizeForecast_Panic_iff]]].
  - intros Hk. unfold summarizeForecast. by rewrite decide_True.
  - intros err Hk Hchat. unfold summarizeForecast, summaryPrompt in *.
    rewrite decide_False by done. by rewrite Hchat.
  - intros c cs Hk Hchat. unfold summarizeForecast, summaryPrompt in *.
    rewrite decide_False by done. by rewrite Hchat.
Qed.

(** X19.  buildForecastText never returns an error.  It produces a text
    exactly when the current conditions have a description and so has
    each of the six daily entries after the first; the first daily entry
    is never read, and a response without daily entries still gives a
    text. *)
Theorem buildForecastText_returns_exactly :
  forall (std : GoStd) (city zip : string) (w : WeatherResponse),
    (forall e, buildForecastText city zip w <> Err e)
    /\ ((exists text, buildForecastText city zip w = Ok text) <->
        Current_Weather (Current w) <> []
        /\ Forall (fun day => Daily_Weather day <> []) (take 6 (drop 1 (Daily w)))).
Proof.
  intros std city zip w. split; [intros e; apply buildForecastText_no_Err|]. split.
  - intros [text Ht].
    destruct (Current_Weather (Current w)) as [|d ds] eqn:Hc.
    + destruct (buildForecastText_stops city zip w) as [msg Hm]; [by left|].
      congruence.
    + split; [done|].
      destruct (descriptions_dec (take 6 (drop 1 (Daily w)))) as [Hf|Hex]; [done|].
      destruct (buildForecastText_stops city zip w) as [msg Hm]; [by right|].
      congruence.
  - intros [Hc Hf]. by apply buildForecastText_returns.
Qed.

(** X20.  Without an API key, a fallback chain that answers at every step
    but whose forecast holds no period with a parsable start time leaves
    the daily sequence empty, and GetLocationWeather panics on the slice
    length -1 instead of returning an error. *)
Theorem fallback_without_parsable_period_panics :
  forall (std : GoStd) (w : World) (zip : string) (config : Config)
         (lat lon : float) (city : string) (forecastData : NWSForecastResponse)
         (weather : WeatherResponse),
    APIKey config = "" ->
    getNWSCoordinates zip = Ok (lat, lon, city) ->
    getNWSWeather w lat lon = Ok weather ->
    Daily weather = nwsDaily (Periods forecastData) (time_Format (now_forecast w)) ->
    Forall (fun p => time_Parse (StartTime p) = None) (Periods forecastData) ->
    GetLocationWeather w zip config = Panic "makeslice: len out of range".
Proof.
  intros std w zip config lat lon city fd weather Hk Hc Hw Hd Hnone.
  assert (dateKeys (Periods fd) = []) as Hkeys.
  { clear Hd. unfold dateKeys. induction Hnone as [|p ps Hp _ IH]; simpl; [done|].
    rewrite Hp. simpl. exact IH. }
  assert (Daily weather = []) as Hnil.
  { apply length_zero_iff_nil. rewrite Hd, nwsDaily_length.
    apply map_size_empty_iff, dom_empty_iff_L.
    by rewrite groupPeriods_dom, Hkeys. }
  apply (empty_daily_panics w zip config lat lon city weather); [| |done].
  - unfold getCoordinates. by rewrite Hk, decide_True.
  - unfold getWeather. by rewrite Hk, decide_True.
Qed.

Lemma fallback_without_parsable_period_panics_example :
  GetLocationWeather nws_garbled "10001" (batch_json "" ["10001"])
  = Panic "makeslice: len out of range".
Proof.
  assert (exists weather,
            getNWSWeather nws_garbled 40.7501 (-73.9996) = Ok weather
            /\ Daily weather = nwsDaily [garbled] (time_Format (now_forecast nws_garbled)))
    as (weather & Hw & Hd) by (eexists; split; reflexivity).
  apply (fallback_without_parsable_period_panics GoModel.std nws_garbled "10001"
           (batch_json "" ["10001"]) 40.7501%float (-73.9996)%float "New York"
           {| Periods := [garbled] |} weather);
    [reflexivity | reflexivity | exact Hw | exact Hd |].
  repeat constructor.
Defined.

(** ** The batch: ProcessLocations and what it writes *)

Section BatchFacts.
Context `{GoStd}.

Lemma iterations_cons config (worlds : nat -> World) i zip zips :
  iterations config worlds i (zip :: zips)
  = (zip, GetLocationWeather (worlds i) zip config)
    :: iterations config worlds (S i) zips.
Proof.
  unfold iterations. simpl. rewrite Nat.add_0_r. f_equal.
  apply imap_ext. intros j z _. simpl. do 3 f_equal. lia.
Qed.

Lemma processLoop_iterations config (worlds : nat -> World) zips :
  forall i acc log,
    processLoop config worlds i zips acc log
    = match firstPanic (iterations config worlds i zips) with
      | Some msg => Panic msg
      | None => Ok (acc ++ collected (iterations config worlds i zips),
                    log ++ skipped (iterations config worlds i zips))
      end.
Proof.
  induction zips as [|zip zips IH]; intros i acc log.
  - simpl. by rewrite !app_nil_r.
  - rewrite iterations_cons. simpl.
    destruct (GetLocationWeather (worlds i) zip config) as [wd|err|msg]; simpl; [| |done].
    + rewrite IH. destruct (firstPanic _); [done|]. by rewrite <-app_assoc.
    + rewrite IH. destruct (firstPanic _); [done|]. by rewrite <-app_assoc.
Qed.

Lemma processLoopOut_iterations config (worlds : nat -> World) zips :
  forall i acc log trace,
    processLoopOut config worlds i zips acc log trace
    = (trace ++ (if batched config then []
                 else flat_map (fun wd => OutputWeatherData wd config)
                        (collected (beforePanic (iterations config worlds i zips)))),
       processLoop config worlds i zips acc log).
Proof.
  induction zips as [|zip zips IH]; intros i acc log trace.
  - simpl. destruct (batched config); by rewrite app_nil_r.
  - rewrite iterations_cons. simpl.
    destruct (GetLocationWeather (worlds i) zip config) as [wd|err|msg]; simpl.
    + rewrite IH. destruct (batched config); simpl; [done|].
      by rewrite <-app_assoc.
    + by rewrite IH.
    + destruct (batched config); by rewrite app_nil_r.
Qed.

Lemma beforePanic_all (runs : list (string * outcome WeatherData)) :
  firstPanic runs = None -> beforePanic runs = runs.
Proof.
  induction runs as [|[zip [wd|err|msg]] runs IH]; simpl; intros Hn;
    [done| | |done]; by rewrite IH.
Qed.

End BatchFacts.

(** X21.  ProcessLocations treats the ZIP codes independently and in
    order: its result is the first panic among the per-ZIP outcomes if
    there is one, and otherwise the successful records and the logged
    failures, each in the order of the ZIP codes.  A failure never stops
    the loop, a panic always does. *)
Theorem ProcessLocations_partitions_the_batch :
  forall (std : GoStd) (config : Config) (worlds : nat -> World),
    ProcessLocations config worlds
    = match firstPanic (iterations config worlds 0 (ZipCodes config)) with
      | Some msg => Panic msg
      | None => Ok (collected (iterations config worlds 0 (ZipCodes config)),
                    skipped (iterations config worlds 0 (ZipCodes config)))
      end.
Proof.
  intros std config worlds. unfold ProcessLocations.
  by rewrite processLoop_iterations.
Qed.

(** X22.  With the JSON or CSV format nothing is written while the loop
    runs.  The batch writer is called once, after the loop, with all the
    collected records, and only if there is at least one; a panic in any
    iteration loses the records collected before it. *)
Theorem batched_output_is_all_or_nothing :
  forall (std : GoStd) (create : string -> bool) (config : Config)
         (worlds : nat -> World),
    batched config = true ->
    ProcessLocationsOut create config worlds
    = match ProcessLocations config worlds with
      | Ok ([], log) => ([], Ok ([], log))
      | Ok (weatherDataList, log) =>
          (OutputWeatherDataBatch create weatherDataList config,
           Ok (weatherDataList, log))
      | other => ([], other)
      end.
Proof.
  intros std create config worlds Hb. unfold ProcessLocationsOut, ProcessLocations.
  rewrite processLoopOut_iterations, Hb. simpl.
  destruct (processLoop config worlds 0 (ZipCodes config) [] [])
    as [[[|wd l] log]| |]; by rewrite ?Hb.
Qed.

Lemma batched_output_is_all_or_nothing_example :
  batched (batch_json "k" ["90210"; "10001"]) = true
  /\ ProcessLocationsOut (fun _ => true) (batch_json "k" ["90210"; "10001"])
       (fun _ => owm_empty)
     = ([], Panic "makeslice: len out of range").
Proof.
  split; [reflexivity|].
  rewrite (batched_output_is_all_or_nothing GoModel.std (fun _ => true)
             (batch_json "k" ["90210"; "10001"]) (fun _ => owm_empty));
    reflexivity.
Defined.

(** X23.  With the text or kafka format every record is written as soon
    as its ZIP code has been processed: what has been written is the
    per-record output of the successful iterations before the first
    panic, in order, and the batch writer is never called. *)
Theorem streamed_output_follows_the_loop :
  forall (std : GoStd) (create : string -> bool) (config : Config)
         (worlds : nat -> World),
    batched config = false ->
    (ProcessLocationsOut create config worlds).1
    = flat_map (fun wd => OutputWeatherData wd config)
        (collected (beforePanic (iterations config worlds 0 (ZipCodes config))))
    /\ (ProcessLocationsOut create config worlds).2
       = ProcessLocations config worlds.
Proof.
  intros std create config worlds Hb. unfold ProcessLocationsOut, ProcessLocations.
  rewrite processLoopOut_iterations, Hb. simpl.
  destruct (processLoop config worlds 0 (ZipCodes config) [] [])
    as [[l log]| |]; simpl; [|done..].
  by rewrite andb_false_r.
Qed.

Lemma streamed_output_follows_the_loop_example :
  batched (batch_text "k" ["90210"]) = false
  /\ (ProcessLocationsOut (fun _ => true) (batch_text "k" ["90210"]) (fun _ => silent)).1
     = flat_map (fun wd => OutputWeatherData wd (batch_text "k" ["90210"]))
         (collected (beforePanic
            (iterations (batch_text "k" ["90210"]) (fun _ => silent) 0 ["90210"]))).
Proof.
  split; [reflexivity|].
  apply (streamed_output_follows_the_loop GoModel.std (fun _ => true)
           (batch_text "k" ["90210"]) (fun _ => silent)).
  reflexivity.
Defined.

(** X24.  The shape of the JSON output depends on how many ZIP codes
    succeeded, not on how many were asked for: nothing at all when none
    did, a single object when exactly one did, an array otherwise. *)
Theorem json_shape_follows_successes :
  forall (std : GoStd) (create : string -> bool) (config : Config)
         (worlds : nat -> World) (weatherDataList : list WeatherData)
         (log : list (string * error)),
    OutputFormat config = FormatJSON ->
    OutputPath config = "" \/ create (OutputPath config) = true ->
    ProcessLocations config worlds = Ok (weatherDataList, log) ->
    (ProcessLocationsOut create config worlds).1
    = match weatherDataList with
      | [] => []
      | [data] => [JSONObject (OutputPath config) data]
      | _ => [JSONArray (OutputPath config) weatherDataList]
      end.
Proof.
  intros std create config worlds l log Hf Hpath Hres.
  assert (batched config = true) as Hb.
  { unfold batched. by rewrite bool_decide_true. }
  unfold ProcessLocationsOut. unfold ProcessLocations in Hres.
  rewrite processLoopOut_iterations, Hb, Hres. simpl.
  destruct l as [|wd l]; simpl; [done|].
  unfold OutputWeatherDataBatch, OutputJSONFormat. rewrite decide_True by done.
  assert (negb (bool_decide (OutputPath config = "")) && negb (create (OutputPath config))
          = false) as ->.
  { destruct Hpath as [->| ->]; [done|apply andb_false_r]. }
  by destruct l.
Qed.

Lemma json_shape_follows_successes_example :
  exists (wd : WeatherData) (log : list (string * error)),
    length log = 1%nat
    /\ (ProcessLocationsOut (fun _ => true) (batch_json "k" ["10001"; "90210"])
          first_fails).1
       = [JSONObject "" wd].
Proof.
  assert (exists (wd : WeatherData) (log : list (string * error)),
            ProcessLocations (batch_json "k" ["10001"; "90210"]) first_fails
            = Ok ([wd], log) /\ length log = 1%nat)
    as (wd & log & Hres & Hlog) by (do 2 eexists; split; reflexivity).
  exists wd, log. split; [exact Hlog|].
  apply (json_shape_follows_successes GoModel.std (fun _ => true)
           (batch_json "k" ["10001"; "90210"]) first_fails [wd] log);
    [reflexivity | by left | exact Hres].
Defined.

(** X25.  Without an API key the missing-description panic cannot happen:
    every daily entry the fallback builds carries one description.  So a
    failed chain is returned as a wrapped error, a chain that yields no
    daily entry panics on the slice length, and any other chain gives a
    record whose forecast is the (at most six) entries after the first,
    provided the summariser, if it is called, returns a text. *)
Theorem fallback_location_outcomes :
  forall (std : GoStd) (w : World) (zip : string) (config : Config)
         (lat lon : float) (city : string),
    APIKey config = "" ->
    OutputFormat config <> FormatText \/ summaryReturns w ->
    getNWSCoordinates zip = Ok (lat, lon, city) ->
    (forall e, getNWSWeather w lat lon = Err e ->
       GetLocationWeather w zip config = Err (ErrWrap "failed to get weather" e))
    /\ (forall weather, getNWSWeather w lat lon = Ok weather ->
          Daily weather = [] ->
          GetLocationWeather w zip config = Panic "makeslice: len out of range")
    /\ (forall weather, getNWSWeather w lat lon = Ok weather ->
          Daily weather <> [] ->
          exists wd,
            GetLocationWeather w zip config = Ok wd
            /\ LocationName wd = city
            /\ Forecast wd = forecastOf <$> take 6 (drop 1 (Daily weather))).
Proof.
  intros std w zip config lat lon city Hk Hsum Hc.
  assert (getCoordinates w zip (APIKey config) = Ok (lat, lon, city)) as Hc'.
  { unfold getCoordinates. by rewrite Hk, decide_True. }
  assert (getWeather w lat lon (APIKey config) = getNWSWeather w lat lon) as Hw'.
  { unfold getWeather. by rewrite Hk, decide_True. }
  split; [|split].
  - intros e He. unfold GetLocationWeather. rewrite Hc'. simpl.
    by rewrite Hw', He.
  - intros weather Hw Hd.
    apply (empty_daily_panics w zip config lat lon city weather); [done| |done].
    by rewrite Hw'.
  - intros weather Hw Hd.
    destruct (getNWSWeather_descriptions w lat lon weather Hw) as [Hcur Hall].
    assert (Forall (fun day => Daily_Weather day <> [])
                   (take 6 (drop 1 (Daily weather)))) as Hf.
    { by apply Forall_take, Forall_drop. }
    unfold GetLocationWeather. rewrite Hc'. simpl. rewrite Hw', Hw. simpl.
    destruct (capDays (Daily weather) - 1 <? 0) eqn:Hneg;
      [by apply capDays_neg in Hneg|].
    rewrite (fillForecast_capDays _ Hf). simpl.
    destruct (decide (OutputFormat config = FormatText)) as [Ht|Ht]; simpl.
    + destruct Hsum as [?|Hsum]; [done|].
      destruct (buildForecastText_returns city zip weather Hcur Hf) as [text ->].
      simpl.
      destruct (summarizeForecast_returns w text Hsum) as [summary ->]. simpl.
      by eauto.
    + by eauto.
Qed.

Lemma fallback_location_outcomes_example :
  exists wd,
    GetLocationWeather nws_up "10001" (batch_json "" ["10001"]) = Ok wd
    /\ LocationName wd = "New York"
    /\ length (Forecast wd) = 1%nat.
Proof.
  assert (exists weather,
            getNWSWeather nws_up 40.7501 (-73.9996) = Ok weather
            /\ length (Daily weather) = 2%nat)
    as (weather & Hw & Hlen) by (eexists; split; reflexivity).
  destruct (fallback_location_outcomes GoModel.std nws_up "10001"
              (batch_json "" ["10001"]) 40.7501%float (-73.9996)%float "New York")
    as (_ & _ & Hok); [reflexivity | by left | reflexivity |].
  destruct (Hok weather Hw) as (wd & Hwd & Hname & Hfc).
  { intros Hd. by rewrite Hd in Hlen. }
  exists wd. split; [exact Hwd|]. split; [exact Hname|].
  rewrite Hfc, length_fmap, length_take, length_drop, Hlen. reflexivity.
Defined.
